(** * The SOQL query builder of the AI report service

    A shallow embedding of the query-construction pipeline of the external
    AI service:

    - [config/salesforceMapping.js]: the static schema (objects and their
      field lists);
    - [services/openaiService.js]: [fallbackProcessing], the keyword-based
      intent used when the language model is not available;
    - [utils/soqlBuilder.js]: [generateSOQL] with its clause builders, and
      [validateSOQL].

    Modelling conventions.

    - A JavaScript string is a [string]: a sequence of 8-bit characters.  The
      model is exact on ASCII text, which is what the schema, the keyword
      tables and SOQL itself are made of.  Case mapping acts on the letters
      [a]-[z] and [A]-[Z]; white space is TAB, LF, VT, FF, CR and SPACE;
      characters from 128 on are carried along unchanged.  Outside ASCII
      JavaScript does more ([toUpperCase] turns U+00DF into SS and U+0131
      into I, [trim] and [\s] take U+00A0): a statement that would depend
      on it either carries the hypothesis [isAscii] or is worded so that it
      holds whatever the characters outside ASCII do.
    - A JavaScript array of strings is a [list string].  [unshift] on the
      array that the caller still holds is modelled by returning the
      caller's array after the call together with the result.
    - An object literal used as a table is an association list; a property
      read on it first looks at the own properties and then at
      [Object.prototype], as the [obj[key]] of the source does.
    - A thrown exception is the [Throw] case of a completion; [try]/[catch]
      is a [match] on it. *)

From Stdlib Require Import String Ascii List Bool Arith NArith Lia.
From Stdlib Require Import DecimalString DecimalPos DecimalN.
Import ListNotations.
Open Scope string_scope.

(* ================================================================= *)
(** ** JavaScript primitives used by the service *)

Module Js.

Definition code (c : ascii) : nat := nat_of_ascii c.

Definition between (lo hi : nat) (c : ascii) : bool :=
  Nat.leb lo (code c) && Nat.leb (code c) hi.

Definition isUpper : ascii -> bool := between 65 90.
Definition isLower : ascii -> bool := between 97 122.
Definition isDigit : ascii -> bool := between 48 57.

(** [\s] and the characters removed by [trim], on 8-bit text. *)
Definition isWhiteSpace (c : ascii) : bool :=
  between 9 13 c || Nat.eqb (code c) 32.

Definition upperChar (c : ascii) : ascii :=
  if isLower c then ascii_of_nat (code c - 32) else c.
Definition lowerChar (c : ascii) : ascii :=
  if isUpper c then ascii_of_nat (code c + 32) else c.

Fixpoint mapChars (f : ascii -> ascii) (s : string) : string :=
  match s with
  | EmptyString => EmptyString
  | String c s' => String (f c) (mapChars f s')
  end.

Definition toUpperCase : string -> string := mapChars upperChar.
Definition toLowerCase : string -> string := mapChars lowerChar.

(** [s.startsWith(p)] *)
Fixpoint startsWith (s p : string) {struct p} : bool :=
  match p, s with
  | EmptyString, _ => true
  | String _ _, EmptyString => false
  | String b p', String a s' => Ascii.eqb a b && startsWith s' p'
  end.

(** [s.includes(sub)] *)
Fixpoint includes (s sub : string) : bool :=
  startsWith s sub ||
  match s with
  | EmptyString => false
  | String _ s' => includes s' sub
  end.

Fixpoint trimStart (s : string) : string :=
  match s with
  | EmptyString => EmptyString
  | String c s' => if isWhiteSpace c then trimStart s' else s
  end.

Fixpoint trimEnd (s : string) : string :=
  match s with
  | EmptyString => EmptyString
  | String c s' =>
      match trimEnd s' with
      | EmptyString => if isWhiteSpace c then EmptyString else String c EmptyString
      | t => String c t
      end
  end.

(** [s.trim()] *)
Definition trim (s : string) : string := trimEnd (trimStart s).

(** A string in a boolean position: only the empty string is falsy. *)
Definition truthy (s : string) : bool := negb (s =? "").

(** [arr.join(sep)] *)
Definition join (sep : string) (arr : list string) : string :=
  String.concat sep arr.

(** [arr.includes(x)] *)
Definition arrIncludes (arr : list string) (x : string) : bool :=
  existsb (String.eqb x) arr.

(** [new Set(arr)] spread back into an array: a [Set] keeps its members
    in insertion order and ignores the insertion of a member it has. *)
Definition setAdd (s : list string) (x : string) : list string :=
  if arrIncludes s x then s else (s ++ [x])%list.

Definition setOf (arr : list string) : list string :=
  fold_left setAdd arr [].

(** [parseInt] on a string of decimal digits. *)
Definition digitValue (c : ascii) : N := N.of_nat (code c - 48).

Fixpoint parseDigits (acc : N) (s : string) : N :=
  match s with
  | EmptyString => acc
  | String c s' => parseDigits (10 * acc + digitValue c) s'
  end.

Definition parseInt (digits : string) : N := parseDigits 0 digits.

(** The longest prefix of [s] made of characters satisfying [p], and the
    rest. *)
Fixpoint span (p : ascii -> bool) (s : string) : string * string :=
  match s with
  | EmptyString => (EmptyString, EmptyString)
  | String c s' =>
      if p c then let '(a, b) := span p s' in (String c a, b)
      else (EmptyString, s)
  end.

Fixpoint drop (n : nat) (s : string) : string :=
  match n, s with
  | O, _ => s
  | S _, EmptyString => EmptyString
  | S n', String _ s' => drop n' s'
  end.

(** *** Property reads

    What [table[key]] yields when [table] is an object literal: the own
    property if there is one, else the member of [Object.prototype] of
    that name, else [undefined]. *)

Inductive inherited : Type :=
| Function (arity : nat)   (* a method of [Object.prototype] *)
| ObjectPrototype.         (* what the [__proto__] accessor returns *)

Definition Object_prototype : list (string * inherited) :=
  [ ("constructor", Function 1);
    ("__defineGetter__", Function 2);
    ("__defineSetter__", Function 2);
    ("hasOwnProperty", Function 1);
    ("__lookupGetter__", Function 1);
    ("__lookupSetter__", Function 1);
    ("isPrototypeOf", Function 1);
    ("propertyIsEnumerable", Function 1);
    ("toString", Function 0);
    ("valueOf", Function 0);
    ("__proto__", ObjectPrototype);
    ("toLocaleString", Function 0) ].

Fixpoint assoc {A : Type} (key : string) (table : list (string * A)) : option A :=
  match table with
  | [] => None
  | (k, v) :: rest => if k =? key then Some v else assoc key rest
  end.

Inductive property (A : Type) : Type :=
| Own (a : A)
| Inherited (v : inherited)
| Undefined.
Arguments Own {A} a.
Arguments Inherited {A} v.
Arguments Undefined {A}.

Definition get {A : Type} (table : list (string * A)) (key : string) : property A :=
  match assoc key table with
  | Some a => Own a
  | None =>
      match assoc key Object_prototype with
      | Some v => Inherited v
      | None => Undefined
      end
  end.

(** [table.hasOwnProperty(key)] *)
Definition hasOwnProperty {A : Type} (table : list (string * A)) (key : string) : bool :=
  match assoc key table with Some _ => true | None => false end.

(** The value of an expression that is an array of strings when all goes
    well, and an inherited member otherwise. *)
Inductive value : Type :=
| Arr (l : list string)
| NotArr (v : inherited).

(** [table[key] || fallback] for a table of arrays: arrays, functions and
    objects are all truthy. *)
Definition getOr (table : list (string * list string)) (key : string)
           (fallback : list string) : value :=
  match get table key with
  | Own l => Arr l
  | Inherited v => NotArr v
  | Undefined => Arr fallback
  end.

(** *** Exceptions *)

Inductive exn : Type :=
| Error (message : string)   (* [throw new Error(message)] *)
| TypeError.                 (* raised by the engine *)

Inductive completion (A : Type) : Type :=
| Return (a : A)
| Throw (e : exn).
Arguments Return {A} a.
Arguments Throw {A} e.

Definition bind {A B : Type} (c : completion A) (k : A -> completion B) : completion B :=
  match c with
  | Return a => k a
  | Throw e => Throw e
  end.

(** [arr.filter(p)] for a callback that may throw. *)
Fixpoint filterM {A : Type} (p : A -> completion bool) (l : list A) : completion (list A) :=
  match l with
  | [] => Return []
  | x :: l' =>
      bind (p x) (fun keep =>
      bind (filterM p l') (fun rest =>
      Return (if keep then x :: rest else rest)))
  end.



(** The double quote, as a one-character string. *)
Definition quote : string := String (ascii_of_nat 34) EmptyString.

(** A text of ASCII characters only: on such a text the case mappings, the
    white space and the patterns of this file are those of JavaScript. *)
Fixpoint isAscii (s : string) : bool :=
  match s with
  | EmptyString => true
  | String c s' => Nat.ltb (code c) 128 && isAscii s'
  end.

End Js.

Notation "x <- c ;; k" := (Js.bind c (fun x => k))
(at level 61, c at next level, right associativity).

(* ================================================================= *)
(** ** config/salesforceMapping.js *)

Module SalesforceMapping.

Record objectInfo : Type := {
  label : string;
  fields : list string;
  relationships : list string
}.

Definition Account_fields : list string :=
  [ "Id"; "Name"; "AccountNumber"; "Type"; "Industry"; "Rating"; "Phone";
    "Fax"; "Website"; "PhotoUrl"; "BillingStreet"; "BillingCity";
    "BillingState"; "BillingPostalCode"; "BillingCountry"; "ShippingStreet";
    "ShippingCity"; "ShippingState"; "ShippingPostalCode"; "ShippingCountry";
    "Description"; "NumberOfEmployees"; "AnnualRevenue"; "OwnerId";
    "CreatedDate"; "CreatedById"; "LastModifiedDate"; "LastModifiedById";
    "SystemModstamp"; "LastActivityDate"; "LastViewedDate";
    "LastReferencedDate"; "IsDeleted"; "MasterRecordId"; "ParentId";
    "Active__c"; "AUM__c"; "Client_Since__c"; "Priority__c" ].

Definition Account_relationships : list string :=
  [ "Parent"; "Contacts"; "Opportunities"; "Cases"; "Tasks"; "Events" ].

Definition Contact_fields : list string :=
  [ "Id"; "IsDeleted"; "MasterRecordId"; "AccountId"; "LastName";
    "FirstName"; "Salutation"; "Name"; "OtherStreet"; "OtherCity";
    "OtherState"; "OtherPostalCode"; "OtherCountry"; "MailingStreet";
    "MailingCity"; "MailingState"; "MailingPostalCode"; "MailingCountry";
    "Phone"; "Fax"; "MobilePhone"; "HomePhone"; "OtherPhone";
    "AssistantPhone"; "ReportsToId"; "Email"; "Title"; "Department";
    "AssistantName"; "LeadSource"; "Birthdate"; "Description"; "CreatedDate";
    "CreatedById"; "LastModifiedDate"; "LastModifiedById"; "SystemModstamp";
    "LastActivityDate"; "LastCURequestDate"; "LastCUUpdateDate";
    "LastViewedDate"; "LastReferencedDate"; "EmailBouncedReason";
    "EmailBouncedDate"; "IsEmailBounced"; "PhotoUrl"; "Jigsaw";
    "JigsawContactId"; "CleanStatus"; "IndividualId"; "Level__c";
    "Languages__c"; "Birthday_Month__c"; "VIP_Status__c" ].

Definition Contact_relationships : list string :=
  [ "Account"; "ReportsTo"; "Opportunities"; "Cases"; "Tasks"; "Events" ].

Definition Lead_fields : list string :=
  [ "Id"; "IsDeleted"; "MasterRecordId"; "LastName"; "FirstName";
    "Salutation"; "Name"; "Title"; "Company"; "Street"; "City"; "State";
    "PostalCode"; "Country"; "Phone"; "MobilePhone"; "Fax"; "Email";
    "Website"; "PhotoUrl"; "Description"; "LeadSource"; "Status"; "Industry";
    "Rating"; "AnnualRevenue"; "NumberOfEmployees"; "OwnerId"; "IsConverted";
    "ConvertedDate"; "ConvertedAccountId"; "ConvertedContactId";
    "ConvertedOpportunityId"; "IsUnreadByOwner"; "CreatedDate";
    "CreatedById"; "LastModifiedDate"; "LastModifiedById"; "SystemModstamp";
    "LastActivityDate"; "LastViewedDate"; "LastReferencedDate"; "Jigsaw";
    "JigsawContactId"; "CleanStatus"; "IndividualId"; "CompanyDunsNumber";
    "DandbCompanyId"; "EmailBouncedReason"; "EmailBouncedDate";
    "IsEmailBounced"; "SICCode__c"; "ProductInterest__c"; "Primary__c";
    "CurrentGenerators__c"; "NumberofLocations__c" ].

Definition Lead_relationships : list string :=
  [ "Owner"; "ConvertedAccount"; "ConvertedContact"; "ConvertedOpportunity" ].

Definition Opportunity_fields : list string :=
  [ "Id"; "IsDeleted"; "AccountId"; "RecordTypeId"; "Name"; "Amount";
    "CloseDate"; "StageName"; "Type"; "Probability"; "ExpectedRevenue";
    "TotalOpportunityQuantity"; "CloseDate"; "Type"; "NextStep";
    "LeadSource"; "IsClosed"; "IsWon"; "ForecastCategory";
    "ForecastCategoryName"; "CampaignId"; "HasOpportunityLineItem";
    "Pricebook2Id"; "OwnerId"; "CreatedDate"; "CreatedById";
    "LastModifiedDate"; "LastModifiedById"; "SystemModstamp";
    "LastActivityDate"; "LastStageChangeDate"; "FiscalYear"; "FiscalQuarter";
    "Fiscal"; "ContactId"; "LastViewedDate"; "LastReferencedDate";
    "Description"; "Type"; "LeadSource"; "HasOpenActivity"; "HasOverdueTask";
    "DeliveryInstallationStatus__c"; "TrackingNumber__c"; "OrderNumber__c";
    "CurrentGenerators__c"; "MainCompetitors__c";
    "DeliveryInstallationStatus__c" ].

Definition Opportunity_relationships : list string :=
  [ "Account"; "Contact"; "Owner"; "Campaign"; "Pricebook2";
    "OpportunityLineItems" ].

Definition Case_fields : list string :=
  [ "Id"; "IsDeleted"; "CaseNumber"; "ContactId"; "AccountId"; "AssetId";
    "ParentId"; "SuppliedName"; "SuppliedEmail"; "SuppliedPhone";
    "SuppliedCompany"; "Type"; "Status"; "Reason"; "Origin"; "Subject";
    "Priority"; "Description"; "IsClosed"; "IsEscalated"; "OwnerId";
    "CreatedDate"; "CreatedById"; "LastModifiedDate"; "LastModifiedById";
    "SystemModstamp"; "LastViewedDate"; "LastReferencedDate"; "ClosedDate";
    "IsClosedOnCreate"; "EscalationStartTime"; "BusinessHoursId";
    "IsStopped"; "StopStartDate"; "ContactEmail"; "ContactPhone";
    "ContactMobile"; "ContactFax"; "Comments"; "LastCaseUpdate";
    "CreatedByRole"; "LastModifiedByRole"; "IsVisibleInSelfService";
    "Days_Since_Last_Update__c"; "Escalation_Level__c"; "SLA_Breach__c";
    "Customer_Satisfaction__c" ].

Definition Case_relationships : list string :=
  [ "Account"; "Contact"; "Asset"; "Parent"; "Owner"; "BusinessHours" ].

Definition Task_fields : list string :=
  [ "Id"; "WhoId"; "WhatId"; "WhoCount"; "WhatCount"; "Subject";
    "ActivityDate"; "Status"; "Priority"; "Description"; "Type"; "IsDeleted";
    "AccountId"; "IsArchived"; "CallDurationInSeconds"; "CallType";
    "CallDisposition"; "CallObject"; "ReminderDateTime"; "IsReminderSet";
    "RecurrenceActivityId"; "IsRecurrence"; "RecurrenceStartDateOnly";
    "RecurrenceEndDateOnly"; "RecurrenceTimeZoneSidKey"; "RecurrenceType";
    "RecurrenceInterval"; "RecurrenceDayOfWeekMask"; "RecurrenceDayOfMonth";
    "RecurrenceInstance"; "RecurrenceMonthOfYear";
    "RecurrenceRegeneratedType"; "TaskSubtype"; "CompletedDateTime";
    "CreatedDate"; "CreatedById"; "LastModifiedDate"; "LastModifiedById";
    "SystemModstamp"; "IsArchived"; "CallDurationInSeconds"; "CallType";
    "CallDisposition"; "CallObject"; "ReminderDateTime"; "IsReminderSet";
    "RecurrenceActivityId"; "IsRecurrence"; "RecurrenceStartDateOnly";
    "RecurrenceEndDateOnly"; "RecurrenceTimeZoneSidKey"; "RecurrenceType";
    "RecurrenceInterval"; "RecurrenceDayOfWeekMask"; "RecurrenceDayOfMonth";
    "RecurrenceInstance"; "RecurrenceMonthOfYear";
    "RecurrenceRegeneratedType"; "TaskSubtype"; "CompletedDateTime";
    "CreatedDate"; "CreatedById"; "LastModifiedDate"; "LastModifiedById";
    "SystemModstamp"; "IsArchived"; "CallDurationInSeconds"; "CallType";
    "CallDisposition"; "CallObject"; "ReminderDateTime"; "IsReminderSet";
    "RecurrenceActivityId"; "IsRecurrence"; "RecurrenceStartDateOnly";
    "RecurrenceEndDateOnly"; "RecurrenceTimeZoneSidKey"; "RecurrenceType";
    "RecurrenceInterval"; "RecurrenceDayOfWeekMask"; "RecurrenceDayOfMonth";
    "RecurrenceInstance"; "RecurrenceMonthOfYear";
    "RecurrenceRegeneratedType"; "TaskSubtype"; "CompletedDateTime";
    "CreatedDate"; "CreatedById"; "LastModifiedDate"; "LastModifiedById";
    "SystemModstamp" ].

Definition Task_relationships : list string :=
  [ "Who"; "What"; "Account"; "Owner" ].

Definition Event_fields : list string :=
  [ "Id"; "WhoId"; "WhatId"; "WhoCount"; "WhatCount"; "Subject"; "Location";
    "IsAllDayEvent"; "ActivityDateTime"; "ActivityDate"; "DurationInMinutes";
    "StartDateTime"; "EndDateTime"; "Description"; "Type"; "IsPrivate";
    "ShowAs"; "IsDeleted"; "IsArchived"; "IsGroupEvent"; "GroupEventType";
    "CreatedDate"; "CreatedById"; "LastModifiedDate"; "LastModifiedById";
    "SystemModstamp"; "IsArchived"; "RecurrenceActivityId"; "IsRecurrence";
    "RecurrenceStartDateOnly"; "RecurrenceEndDateOnly";
    "RecurrenceTimeZoneSidKey"; "RecurrenceType"; "RecurrenceInterval";
    "RecurrenceDayOfWeekMask"; "RecurrenceDayOfMonth"; "RecurrenceInstance";
    "RecurrenceMonthOfYear"; "RecurrenceRegeneratedType"; "Subject";
    "Location"; "IsAllDayEvent"; "ActivityDateTime"; "ActivityDate";
    "DurationInMinutes"; "StartDateTime"; "EndDateTime"; "Description";
    "Type"; "IsPrivate"; "ShowAs"; "IsDeleted"; "IsArchived"; "IsGroupEvent";
    "GroupEventType" ].

Definition Event_relationships : list string :=
  [ "Who"; "What"; "Owner" ].

(** [buildSchema().objects] *)
Definition objects : list (string * objectInfo) :=
  [ ("Account", {| label := "Account"; fields := Account_fields;
                   relationships := Account_relationships |});
    ("Contact", {| label := "Contact"; fields := Contact_fields;
                   relationships := Contact_relationships |});
    ("Lead", {| label := "Lead"; fields := Lead_fields;
                relationships := Lead_relationships |});
    ("Opportunity", {| label := "Opportunity"; fields := Opportunity_fields;
                       relationships := Opportunity_relationships |});
    ("Case", {| label := "Case"; fields := Case_fields;
                relationships := Case_relationships |});
    ("Task", {| label := "Task"; fields := Task_fields;
                relationships := Task_relationships |});
    ("Event", {| label := "Event"; fields := Event_fields;
                 relationships := Event_relationships |}) ].

Definition getAvailableObjects : list string := map fst objects.

Definition isValidObject (objectName : string) : bool :=
  Js.hasOwnProperty objects objectName.

(** [buildBusinessTerms()] *)
Definition businessTerms : list (string * string) :=
  [ ("customers", "Account");
    ("accounts", "Account");
    ("companies", "Account");
    ("organizations", "Account");
    ("contacts", "Contact");
    ("people", "Contact");
    ("individuals", "Contact");
    ("leads", "Lead");
    ("prospects", "Lead");
    ("opportunities", "Opportunity");
    ("deals", "Opportunity");
    ("sales", "Opportunity");
    ("cases", "Case");
    ("support", "Case");
    ("tickets", "Case");
    ("tasks", "Task");
    ("activities", "Task");
    ("events", "Event");
    ("meetings", "Event");
    ("appointments", "Event");
    ("active", "Active");
    ("inactive", "Inactive");
    ("open", "Open");
    ("closed", "Closed");
    ("won", "Won");
    ("lost", "Lost");
    ("pending", "Pending");
    ("draft", "Draft");
    ("submitted", "Submitted");
    ("approved", "Approved");
    ("rejected", "Rejected");
    ("technology", "Technology");
    ("tech", "Technology");
    ("software", "Technology");
    ("healthcare", "Healthcare");
    ("medical", "Healthcare");
    ("finance", "Financial Services");
    ("banking", "Financial Services");
    ("insurance", "Financial Services");
    ("manufacturing", "Manufacturing");
    ("retail", "Retail");
    ("education", "Education");
    ("government", "Government");
    ("nonprofit", "Non-Profit");
    ("high", "High");
    ("medium", "Medium");
    ("low", "Low");
    ("urgent", "High");
    ("critical", "High");
    ("normal", "Medium");
    ("minor", "Low") ].

(** What [mapBusinessTerm] returns: a string, or the member of
    [Object.prototype] that the property read finds for a term such as
    "constructor". *)
Inductive mapped : Type :=
| Term (s : string)
| NotATerm (v : Js.inherited).

(** [this.businessTerms[lowerTerm] || term]: every entry of the table is a
    non-empty string, hence truthy, and so are the inherited members. *)
Definition mapBusinessTerm (term : string) : mapped :=
  let lowerTerm := Js.toLowerCase term in
  match Js.get businessTerms lowerTerm with
  | Js.Own canonical => Term canonical
  | Js.Inherited v => NotATerm v
  | Js.Undefined => Term term
  end.

(** The result is [None] where the source returns [undefined]: for a
    name that [Object.prototype] supplies the guard is truthy and the
    member has no [fields]. *)
Definition getObjectFields (objectName : string) : option (list string) :=
  match Js.get objects objectName with
  | Js.Own info => Some (fields info)
  | Js.Inherited _ => None
  | Js.Undefined => Some []
  end.

Definition getObjectRelationships (objectName : string) : option (list string) :=
  match Js.get objects objectName with
  | Js.Own info => Some (relationships info)
  | Js.Inherited _ => None
  | Js.Undefined => Some []
  end.

Definition isValidField (fieldName objectName : string) : Js.completion bool :=
  if negb (isValidObject objectName) then Js.Return false
  else
    match getObjectFields objectName with
    | Some fields => Js.Return (Js.arrIncludes fields fieldName)
    | None => Js.Throw Js.TypeError
    end.

End SalesforceMapping.

(* ================================================================= *)
(** ** services/openaiService.js *)

Module OpenAIService.

Record aiResponse : Type := {
  success : bool;
  intent : string;
  object : string;
  fields : list string;
  conditions : list string;
  explanation : string
}.

(** What [processQuery] returns when the service is not configured or
    the call to the model fails. *)
Definition fallbackProcessing (query : string) : aiResponse :=
  let lowerQuery := Js.toLowerCase query in
  let object :=
    if Js.includes lowerQuery "contact" || Js.includes lowerQuery "person" then "Contact"
    else if Js.includes lowerQuery "lead" then "Lead"
    else if Js.includes lowerQuery "opportunity" || Js.includes lowerQuery "deal" then "Opportunity"
    else if Js.includes lowerQuery "case" || Js.includes lowerQuery "support" then "Case"
    else "Account" in
  let fields := ["Id"; "Name"; "CreatedDate"] in
  {| success := true;
     intent := query;
     object := object;
     fields := fields;
     conditions := [];
     explanation := "Basic processing: " ++ query ++ " (OpenAI not available)" |}.

End OpenAIService.

(* ================================================================= *)
(** ** utils/soqlBuilder.js *)

Module SOQLBuilder.
Import Js.

(** [this.schema.objects] *)
Definition schemaObjects : list (string * SalesforceMapping.objectInfo) :=
  SalesforceMapping.objects.

Definition getDefaultFields (object : string) : value :=
  getOr
    [ ("Account", ["Id"; "Name"; "Industry"; "Type"; "CreatedDate"]);
      ("Contact", ["Id"; "Name"; "Email"; "Phone"; "Title"; "CreatedDate"]);
      ("Lead", ["Id"; "Name"; "Company"; "Email"; "Status"; "CreatedDate"]);
      ("Opportunity", ["Id"; "Name"; "Amount"; "StageName"; "CloseDate"; "CreatedDate"]);
      ("Case", ["Id"; "CaseNumber"; "Subject"; "Status"; "Priority"; "CreatedDate"]);
      ("Task", ["Id"; "Subject"; "Status"; "Priority"; "CreatedDate"]);
      ("Event", ["Id"; "Subject"; "StartDateTime"; "EndDateTime"; "CreatedDate"]) ]
    object
    ["Id"; "Name"; "CreatedDate"].

Definition getDefaultConditions (object : string) : value :=
  getOr
    [ ("Account", ["IsDeleted = false"]);
      ("Contact", ["IsDeleted = false"]);
      ("Lead", ["IsDeleted = false"]);
      ("Opportunity", ["IsDeleted = false"]);
      ("Case", ["IsDeleted = false"]);
      ("Task", ["IsDeleted = false"]);
      ("Event", ["IsDeleted = false"]) ]
    object
    ["IsDeleted = false"].

Definition getOrderByFields (object : string) : value :=
  getOr
    [ ("Account", ["Name"]);
      ("Contact", ["Name"]);
      ("Lead", ["Name"]);
      ("Opportunity", ["CloseDate DESC"]);
      ("Case", ["CreatedDate DESC"]);
      ("Task", ["CreatedDate DESC"]);
      ("Event", ["StartDateTime"]) ]
    object
    ["CreatedDate DESC"].

Definition standardFields : list string :=
  ["Id"; "Name"; "CreatedDate"; "LastModifiedDate"].

(** The disjunction that [isFieldValid] returns for an object of the
    schema. *)
Definition knownField (info : SalesforceMapping.objectInfo) (field : string) : bool :=
  arrIncludes (SalesforceMapping.fields info) field
  || includes field "__c"
  || arrIncludes standardFields field.

(** On a name that [Object.prototype] supplies, [schema.objects[object]]
    is a function or an object without [fields]; calling [includes] on
    the missing property throws. *)
Definition isFieldValid (field object : string) : completion bool :=
  match get schemaObjects object with
  | Undefined => Return false
  | Inherited _ => Throw TypeError
  | Own info => Return (knownField info field)
  end.

(** [if (!fields.includes('Id')) fields.unshift('Id')]: the array
    afterwards. *)
Definition ensureId (fields : list string) : list string :=
  if arrIncludes fields "Id" then fields else "Id" :: fields.

(** The [filter] through [isFieldValid] and the ["Id", "Name"] pushed
    into an empty outcome. *)
Definition validate (fields : list string) (object : string)
  : completion (list string) :=
  validFields <- filterM (fun field => isFieldValid field object) fields ;;
  Return (if Nat.eqb (List.length validFields) 0 then ["Id"; "Name"]
          else validFields).

(** The first half of [buildSelectClause]: the array the clause is
    printed from.  The result pairs the caller's array as the call
    leaves it with [validFields].  When the caller's array is empty the
    local name is rebound to the defaults and the caller's array is not
    touched; otherwise a missing ["Id"] is put in front of the caller's
    array itself. *)
Definition selectFields (fields : list string) (object : string)
  : completion (list string * list string) :=
  if Nat.eqb (List.length fields) 0 then
    match getDefaultFields object with
    | NotArr _ => Throw TypeError
    | Arr defaults =>
        validFields <- validate (ensureId defaults) object ;;
        Return (fields, validFields)
    end
  else
    validFields <- validate (ensureId fields) object ;;
    Return (ensureId fields, validFields).

Definition buildSelectClause (fields : list string) (object : string)
  : completion (list string * string) :=
  r <- selectFields fields object ;;
  Return (fst r, "SELECT " ++ join ", " (snd r)).

Definition buildFromClause (object : string) : string := "FROM " ++ object.

Definition extractConditionsFromQuery (query object : string) : list string :=
  let lowerQuery := toLowerCase query in
  let date :=
    if includes lowerQuery "this month" || includes lowerQuery "current month"
    then ["CreatedDate = THIS_MONTH"]
    else if includes lowerQuery "last month" then ["CreatedDate = LAST_MONTH"]
    else if includes lowerQuery "this quarter" then ["CreatedDate = THIS_QUARTER"]
    else if includes lowerQuery "last quarter" then ["CreatedDate = LAST_QUARTER"]
    else if includes lowerQuery "this year" then ["CreatedDate = THIS_YEAR"]
    else if includes lowerQuery "last year" then ["CreatedDate = LAST_YEAR"]
    else [] in
  let status :=
    if includes lowerQuery "active" || includes lowerQuery "open" then
      if object =? "Account" then ["Active__c = true"]
      else if object =? "Opportunity" then ["IsClosed = false"]
      else if object =? "Case" then ["Status != 'Closed'"]
      else []
    else [] in
  let revenue :=
    if includes lowerQuery "high revenue" || includes lowerQuery "high value" then
      if object =? "Opportunity" then ["Amount > 100000"]
      else if object =? "Account" then ["AnnualRevenue > 1000000"]
      else []
    else [] in
  let industry :=
    if includes lowerQuery "technology" || includes lowerQuery "tech" then
      if object =? "Account" then ["Industry = 'Technology'"] else []
    else [] in
  (date ++ status ++ revenue ++ industry)%list.

(** The callback of the [filter] in [buildWhereClause]: [c && c.trim()]. *)
Definition nonBlank (c : string) : bool := truthy c && truthy (trim c).

Definition buildWhereClause (conditions : list string) (originalQuery object : string)
  : completion string :=
  let queryConditions := extractConditionsFromQuery originalQuery object in
  match getDefaultConditions object with
  | NotArr _ => Throw TypeError
  | Arr defaultConditions =>
      let whereConditions := (conditions ++ queryConditions ++ defaultConditions)%list in
      if Nat.eqb (List.length whereConditions) 0 then Return ""
      else
        let uniqueConditions := setOf (filter nonBlank whereConditions) in
        if Nat.eqb (List.length uniqueConditions) 0 then Return ""
        else Return ("WHERE " ++ join " AND " uniqueConditions)
  end.

Definition buildOrderByClause (object : string) : completion string :=
  match getOrderByFields object with
  | Arr orderFields =>
      Return (if Nat.ltb 0 (List.length orderFields)
              then "ORDER BY " ++ join ", " orderFields else "")
  | NotArr (Function arity) =>
      if Nat.ltb 0 arity then Throw TypeError else Return ""
  | NotArr ObjectPrototype => Return ""
  end.

Record generated : Type := {
  soql : string;
  fields : list string;
  object : string;
  conditions : list string
}.

(** [{success: true, ...}] or [{success: false, error, soql: null}]. *)
Inductive result : Type :=
| Success (g : generated)
| Failure (error : exn).

Definition generate (aiResponse : OpenAIService.aiResponse) (originalQuery : string)
  : completion generated :=
  if negb (OpenAIService.success aiResponse) then
    Throw (Error "AI response indicates failure")
  else
    let object := OpenAIService.object aiResponse in
    let fields := OpenAIService.fields aiResponse in
    let conditions := OpenAIService.conditions aiResponse in
    match get schemaObjects object with
    | Undefined => Throw (Error ("Unsupported object: " ++ object))
    | _ =>
        sel <- buildSelectClause fields object ;;
        let selectClause := snd sel in
        let fromClause := buildFromClause object in
        whereClause <- buildWhereClause conditions originalQuery object ;;
        orderByClause <- buildOrderByClause object ;;
        let limitClause := "LIMIT 1000" in
        let soql := trim (selectClause ++ " " ++ fromClause ++ " " ++ whereClause
                          ++ " " ++ orderByClause ++ " " ++ limitClause) in
        Return {| soql := soql; fields := fst sel; object := object;
                  conditions := conditions |}
    end.

(** The body of [generateSOQL] inside its [try], and the [catch]. *)
Definition generateSOQL (aiResponse : OpenAIService.aiResponse) (originalQuery : string)
  : result :=
  match generate aiResponse originalQuery with
  | Return g => Success g
  | Throw e => Failure e
  end.

(** *** Validation *)

Record validation : Type := {
  isValid : bool;
  error : option string
}.

Definition invalid (message : string) : validation :=
  {| isValid := false; error := Some message |}.
Definition valid : validation := {| isValid := true; error := None |}.

Definition forbiddenKeywords : list string :=
  ["INSERT"; "UPDATE"; "DELETE"; "DROP"; "CREATE"; "ALTER"].

(** The [for] loop over the keywords: the first one found. *)
Fixpoint firstForbidden (upperSoql : string) (keywords : list string) : option string :=
  match keywords with
  | [] => None
  | keyword :: rest =>
      if includes upperSoql keyword then Some keyword
      else firstForbidden upperSoql rest
  end.

(** [/LIMIT\s+(\d+)/i] tried at the head of [s]: the letters whatever
    their case, all the white space that follows (at least one), then
    all the digits that follow (at least one), which are captured. *)
Fixpoint startsWithIgnoreCase (s p : string) {struct p} : bool :=
  match p, s with
  | EmptyString, _ => true
  | String _ _, EmptyString => false
  | String b p', String a s' =>
      Ascii.eqb (upperChar a) (upperChar b) && startsWithIgnoreCase s' p'
  end.

Definition limitMatchHere (s : string) : option string :=
  if startsWithIgnoreCase s "LIMIT" then
    let ws := span isWhiteSpace (drop 5 s) in
    if truthy (fst ws) then
      let ds := span isDigit (snd ws) in
      if truthy (fst ds) then Some (fst ds) else None
    else None
  else None.

(** [soql.match(/LIMIT\s+(\d+)/i)]: the leftmost match, its group 1. *)
Fixpoint limitMatch (s : string) : option string :=
  match limitMatchHere s with
  | Some digits => Some digits
  | None =>
      match s with
      | EmptyString => None
      | String _ s' => limitMatch s'
      end
  end.

Definition validateSOQL (soql : string) : validation :=
  if negb (truthy soql) then
    invalid "SOQL query is required and must be a string"
  else
    let upperSoql := toUpperCase soql in
    if negb (includes upperSoql "SELECT ") then invalid "Missing SELECT clause"
    else if negb (includes upperSoql " FROM ") then invalid "Missing FROM clause"
    else
      match firstForbidden upperSoql forbiddenKeywords with
      | Some keyword => invalid ("Forbidden keyword detected: " ++ keyword)
      | None =>
          if negb (includes upperSoql " LIMIT ") then
            invalid "Missing LIMIT clause for performance"
          else
            match limitMatch soql with
            | Some digits =>
                if N.ltb 2000 (parseInt digits)
                then invalid "LIMIT value cannot exceed 2000"
                else valid
            | None => valid
            end
      end.

End SOQLBuilder.

(* ================================================================= *)
(** ** The specification's wording

  Definitions that follow the words of the specification where a claim
  compares them with the code, and the predicates the statements below
  are phrased with. *)

Module Spec.
Import Js.

(** The Intent of the specification: a successful response of the
    language-model stage. *)
Definition intent (object : string) (fields conditions : list string)
  : OpenAIService.aiResponse :=
  {| OpenAIService.success := true;
     OpenAIService.intent := "";
     OpenAIService.object := object;
     OpenAIService.fields := fields;
     OpenAIService.conditions := conditions;
     OpenAIService.explanation := "" |}.

(** The query of the specification's first scenario and the text the
    scenario expects. *)
Definition highRevenueQuery : string := "Show me accounts with high revenue".

Definition highRevenueText : string :=
  "SELECT Id, Name, Industry, Type, CreatedDate FROM Account WHERE AnnualRevenue > 1000000 AND IsDeleted = false ORDER BY Name LIMIT 1000".

(** "objectName is in the Schema Catalog". *)
Definition inCatalog (object : string) : Prop :=
  SalesforceMapping.isValidObject object = true.

(** "Deduplicate by exact string equality (order of first occurrence
    preserved)". *)
Fixpoint dedup (l : list string) : list string :=
  match l with
  | [] => []
  | x :: l' => x :: filter (fun y => negb (y =? x)) (dedup l')
  end.

(** "blank/whitespace-only". *)
Fixpoint blank (s : string) : bool :=
  match s with
  | EmptyString => true
  | String c s' => isWhiteSpace c && blank s'
  end.

(** "concatenate intent.conditions, then query-derived conditions, then
    the object's defaultFilters"; deduplicate; drop blanks. *)
Definition predicates (intentConditions scanned defaultFilters : list string)
  : list string :=
  filter (fun p => negb (blank p))
         (dedup (intentConditions ++ scanned ++ defaultFilters)%list).

(** "Join surviving predicates with " AND "; omit the WHERE clause
    entirely if none survive". *)
Definition whereClause (intentConditions scanned defaultFilters : list string)
  : string :=
  match predicates intentConditions scanned defaultFilters with
  | [] => ""
  | survivors => "WHERE " ++ join " AND " survivors
  end.

(** "join the five clause strings with single spaces, skipping empty
    clauses, trim trailing whitespace". *)
Definition assemble (clauses : list string) : string :=
  trimEnd (join " " (filter truthy clauses)).

(** "more than one consecutive space". *)
Definition doubled (s : string) : bool := includes s "  ".

(** A string that is not empty, has no space at either end and no two
    consecutive spaces: between two spaces it shows no double space. *)
Definition tidy (s : string) : bool :=
  negb (doubled (" " ++ s ++ " ")).

(** A string of decimal digits. *)
Fixpoint allDigits (s : string) : bool :=
  match s with
  | EmptyString => true
  | String c s' => isDigit c && allDigits s'
  end.

(** The next character, if any, is not a digit. *)
Definition noDigitAhead (s : string) : bool :=
  match s with
  | EmptyString => true
  | String c _ => negb (isDigit c)
  end.

End Spec.

(* ================================================================= *)
(** ** services/openaiService.js: the answer read as plain text *)

Module TextResponse.
Import Js.









End TextResponse.

(* ================================================================= *)
(** ** routes/parseQuery.js: POST /api/parse-query

    The handler as a function of the body of the request and of the stage
    [processQuery], which stands for the call to the language model and
    always resolves to a response.  The whole handler runs in a [try]
    whose [catch] answers 500 "Internal server error"; two places of it can
    throw: the destructuring of a body that is [undefined] or [null], and
    the logging line, which turns [userId] and [orgId] into strings.  The
    [metadata] and the [details] of the answers (echo of the request,
    clock readings, text of the exception) are left out. *)

Module ParseQueryRoute.
Import Js.

(** A value of the parsed body.  A number is kept without its value,
    which the handler never looks at; the members of an object are its
    own properties. *)
#[local] Unset Elimination Schemes.
Inductive json : Type :=
| JUndefined
| JNull
| JBool (b : bool)
| JNumber
| JString (s : string)
| JArray (items : list json)
| JObject (members : list (string * json)).
#[local] Set Elimination Schemes.

(** Whether a value can stand in a template literal.  An object is turned
    into a string by its [toString]: with an own member "toString", which
    is no function, [valueOf] is asked, and neither a member "valueOf" nor
    the inherited one gives a primitive, so a TypeError is thrown; without,
    [Object.prototype.toString] answers.  An array joins its items, each
    turned into a string in the same way. *)
Fixpoint printable (v : json) : bool :=
  match v with
  | JArray items => forallb printable items
  | JObject members => negb (hasOwnProperty members "toString")
  | _ => true
  end.

(** [body.name] for one of the names [query], [userId], [orgId], which no
    prototype and no primitive has. *)
Definition member (body : json) (name : string) : json :=
  match body with
  | JObject members =>
      match assoc name members with
      | Some v => v
      | None => JUndefined
      end
  | _ => JUndefined
  end.

Inductive message : Type :=
| Text (s : string)
| EngineText.            (* the text the engine gives a TypeError *)

Inductive response : Type :=
| Ok (soqlQuery explanation : string) (fields : list string)   (* 200 *)
| Rejected (status : nat) (error : string) (message : message).

(** The answer of the [catch] of the handler. *)
Definition internalError : response :=
  Rejected 500 "Internal server error" (Text "Failed to process query").

(** [soqlResult.error || 'Failed to generate SOQL query'] *)
Definition generationMessage (e : exn) : message :=
  match e with
  | Error m => Text (if truthy m then m else "Failed to generate SOQL query")
  | TypeError => EngineText
  end.

(** [validationResult.error || 'Generated SOQL is invalid'] *)
Definition validationMessage (v : SOQLBuilder.validation) : message :=
  match SOQLBuilder.error v with
  | Some m => Text (if truthy m then m else "Generated SOQL is invalid")
  | None => Text "Generated SOQL is invalid"
  end.

(** The handler once the query has passed the input checks and the
    logging line.  The responses of [OpenAIService] carry no [error]
    property, so the message of the failed AI stage is the default one. *)
Definition answer (processQuery : string -> OpenAIService.aiResponse)
           (query : string) : response :=
  let aiResponse := processQuery query in
  if negb (OpenAIService.success aiResponse) then
    Rejected 500 "AI processing failed"
             (Text "Failed to process query with AI service")
  else
    match SOQLBuilder.generateSOQL aiResponse query with
    | SOQLBuilder.Failure e =>
        Rejected 500 "SOQL generation failed" (generationMessage e)
    | SOQLBuilder.Success soqlResult =>
        let validationResult :=
          SOQLBuilder.validateSOQL (SOQLBuilder.soql soqlResult) in
        if negb (SOQLBuilder.isValid validationResult) then
          Rejected 400 "Invalid SOQL generated"
                   (validationMessage validationResult)
        else
          Ok (SOQLBuilder.soql soqlResult)
             (if truthy (OpenAIService.explanation aiResponse)
              then OpenAIService.explanation aiResponse
              else "Generated SOQL query for: " ++ quote ++ query ++ quote)
             (SOQLBuilder.fields soqlResult)
    end.

Definition parseQuery (processQuery : string -> OpenAIService.aiResponse)
           (body : json) : response :=
  match body with
  | JUndefined | JNull => internalError   (* the destructuring throws *)
  | _ =>
      match member body "query" with
      | JString query =>
          if negb (truthy query) then
            Rejected 400 "Invalid input"
                     (Text "Query parameter is required and must be a string")
          else if Nat.ltb 1000 (String.length query) then
            Rejected 400 "Input too long"
                     (Text "Query exceeds maximum length of 1000 characters")
          else if negb (printable (member body "userId")
                        && printable (member body "orgId")) then
            internalError                 (* the logging line throws *)
          else answer processQuery query
      | _ =>
          Rejected 400 "Invalid input"
                   (Text "Query parameter is required and must be a string")
      end
  end.

End ParseQueryRoute.

(* ================================================================= *)
(** ** The Lightning component: results shown and query history *)

Module AiReportBuilder.

Definition QUERY_MIN_LENGTH : nat := 5.
Definition MAX_RESULTS_DISPLAY : nat := 100.
Definition MAX_HISTORY_RECORDS : nat := 50.

(** [queryResults]: [results] is [None] while the object has no such
    property (it starts as [{}] and is reset to it). *)
Record queryResults (Row : Type) : Type := {
  results : option (list Row);
  soqlQuery : string
}.
Arguments results {Row} q.
Arguments soqlQuery {Row} q.

Definition hasResults {Row : Type} (q : queryResults Row) : bool :=
  match results q with
  | Some rows => Nat.ltb 0 (List.length rows)
  | None => false
  end.

Definition rowsOf {Row : Type} (q : queryResults Row) : list Row :=
  match results q with
  | Some rows => rows
  | None => []
  end.

Definition displayedResults {Row : Type} (q : queryResults Row) : list Row :=
  if hasResults q then firstn MAX_RESULTS_DISPLAY (rowsOf q) else [].

Definition hasMoreResults {Row : Type} (q : queryResults Row) : bool :=
  hasResults q && Nat.ltb MAX_RESULTS_DISPLAY (List.length (rowsOf q)).

Definition recordCount {Row : Type} (q : queryResults Row) : nat :=
  if hasResults q then List.length (rowsOf q) else 0.

Definition generatedSOQL {Row : Type} (q : queryResults Row) : string :=
  if hasResults q then soqlQuery q else "".

(** [isQueryDisabled] *)
Definition isQueryDisabled (isProcessing : bool) (currentQuery : string) : bool :=
  isProcessing
  || negb (Js.truthy currentQuery)
  || Nat.ltb (String.length currentQuery) QUERY_MIN_LENGTH.

(** [_saveToHistory]: the entry goes in front, and the list is cut back
    to its first [MAX_HISTORY_RECORDS] entries when it has grown past
    them. *)
Definition saveToHistory {Entry : Type} (history : list Entry) (entry : Entry)
  : list Entry :=
  let history := entry :: history in
  if Nat.ltb MAX_HISTORY_RECORDS (List.length history)
  then firstn MAX_HISTORY_RECORDS history
  else history.

End AiReportBuilder.

(* ================================================================= *)
(** ** Notions used by the statements on the rest of the code *)

Module Calls.

(** The response object after a call of [generateSOQL] that returned
    [fields]: the call may have put "Id" in front of the array that the
    response holds, and the array returned is that same array. *)
Definition afterCall (ai : OpenAIService.aiResponse) (fields : list string)
  : OpenAIService.aiResponse :=
  {| OpenAIService.success := OpenAIService.success ai;
     OpenAIService.intent := OpenAIService.intent ai;
     OpenAIService.object := OpenAIService.object ai;
     OpenAIService.fields := fields;
     OpenAIService.conditions := OpenAIService.conditions ai;
     OpenAIService.explanation := OpenAIService.explanation ai |}.

(** The table of [mapBusinessTerm] has an entry for the term. *)
Definition resolves (term : string) : bool :=
  Js.hasOwnProperty SalesforceMapping.businessTerms (Js.toLowerCase term).

End Calls.

(* ================================================================= *)
(** ** What [/LIMIT\s+(\d+)/i] means, said on the text itself

    The pattern matches at a place of the text where the word LIMIT stands
    in some letter case, followed by white space (one character at least),
    followed by decimal digits (one at least); all the white space and all
    the digits are taken, and the digits are group 1.  [match] returns the
    leftmost place.  None of the definitions below is used by the embedding
    of [validateSOQL]: they say what its pattern has to find. *)

Module LimitPattern.

(** [kw] is [word] (written in capitals) in some letter case: character by
    character the capital or its small letter.  Under the [i] flag a
    letter of the pattern matches these two characters and no other. *)
Fixpoint spells (kw word : string) : bool :=
  match kw, word with
  | EmptyString, EmptyString => true
  | String a kw', String b word' =>
      (Ascii.eqb a b || Ascii.eqb a (Js.lowerChar b)) && spells kw' word'
  | _, _ => false
  end.

(** The number a string of decimal digits denotes, by the decimal numerals
    of the Standard Library; [None] for the empty string and for a string
    with another character. *)
Definition number (digits : string) : option N :=
  option_map N.of_uint (NilZero.uint_of_string digits).

(** A character that is, or may be, white space for [\s]: the six of
    ASCII, and any character outside ASCII (U+00A0 is white space for
    JavaScript; the embedding does not tell the others apart). *)
Definition maybeSpace (c : ascii) : bool :=
  Js.isWhiteSpace c || Nat.leb 128 (Js.code c).

(** [s] begins with [word] in some letter case: what follows it. *)
Fixpoint afterWord (s word : string) {struct word} : option string :=
  match word, s with
  | EmptyString, _ => Some s
  | String _ _, EmptyString => None
  | String b word', String a s' =>
      if Ascii.eqb a b || Ascii.eqb a (Js.lowerChar b) then afterWord s' word'
      else None
  end.

(** [s] is some possible white space followed by a digit; [seen] tells
    that a character of white space has been passed already. *)
Fixpoint spaceThenDigit (seen : bool) (s : string) : bool :=
  match s with
  | EmptyString => false
  | String c s' =>
      if maybeSpace c then spaceThenDigit true s' else seen && Js.isDigit c
  end.

(** The pattern may match at the head of [s].  When this is false it does
    not, whatever the characters outside ASCII are. *)
Definition mayMatchHere (s : string) : bool :=
  match afterWord s "LIMIT" with
  | Some rest => spaceThenDigit false rest
  | None => false
  end.

(** The pattern matches at none of the first [n] places of [s]. *)
Fixpoint noMatchBefore (n : nat) (s : string) : bool :=
  match n with
  | O => true
  | S n' =>
      negb (mayMatchHere s)
      && match s with
         | EmptyString => true
         | String _ s' => noMatchBefore n' s'
         end
  end.

(** The pattern matches nowhere in [s]. *)
Definition noMatch (s : string) : bool := noMatchBefore (String.length s) s.

(** The leftmost match in [soql] and the number it captures: after
    [before], where no match starts, stand the word [kw], the white space
    [ws] and the digits [digits], which denote [n]; the digits are all
    taken: [after] does not go on with one. *)
Definition firstMatch (soql before kw ws digits after : string) (n : N) : Prop :=
  soql = before ++ kw ++ ws ++ digits ++ after /\
  noMatchBefore (String.length before) soql = true /\
  spells kw "LIMIT" = true /\
  ws <> "" /\ Spec.blank ws = true /\
  number digits = Some n /\
  Spec.noDigitAhead after = true.

(** Checks 1 to 4 of the validator pass: the text is not empty, has
    "SELECT " and " FROM " in some letter case, and none of the six
    forbidden keywords in any letter case. *)
Definition passesEarlierChecks (soql : string) : Prop :=
  soql <> "" /\
  Js.includes (Js.toUpperCase soql) "SELECT " = true /\
  Js.includes (Js.toUpperCase soql) " FROM " = true /\
  forall keyword,
    In keyword ["INSERT"; "UPDATE"; "DELETE"; "DROP"; "CREATE"; "ALTER"] ->
    Js.includes (Js.toUpperCase soql) keyword = false.

End LimitPattern.

(* ================================================================= *)
(** ** Facts about strings *)

Section StringFacts.
Import Js.

Lemma append_nil_r (s : string) : s ++ "" = s.
Proof. induction s as [|c s IH]; simpl; [reflexivity | now rewrite IH]. Qed.

Lemma append_assoc (a b c : string) : (a ++ b) ++ c = a ++ (b ++ c).
Proof. induction a as [|x a IH]; simpl; [reflexivity | now rewrite IH]. Qed.

Lemma append_eq_nil (a b : string) : a ++ b = "" -> a = "" /\ b = "".
Proof. destruct a; simpl; [auto | discriminate]. Qed.

Lemma mapChars_append (f : ascii -> ascii) (a b : string) :
  mapChars f (a ++ b) = mapChars f a ++ mapChars f b.
Proof. induction a as [|x a IH]; simpl; [reflexivity | now rewrite IH]. Qed.

Lemma toUpperCase_append (a b : string) :
  toUpperCase (a ++ b) = toUpperCase a ++ toUpperCase b.
Proof. apply mapChars_append. Qed.

Lemma mapChars_length (f : ascii -> ascii) (s : string) :
  String.length (mapChars f s) = String.length s.
Proof. induction s as [|x s IH]; simpl; [reflexivity | now rewrite IH]. Qed.

Lemma truthy_false (s : string) : truthy s = false <-> s = "".
Proof.
  unfold truthy. destruct (String.eqb_spec s ""); simpl; split; congruence.
Qed.

Lemma truthy_true (s : string) : truthy s = true <-> s <> "".
Proof.
  unfold truthy. destruct (String.eqb_spec s ""); simpl; split; congruence.
Qed.

(** *** [startsWith] and [includes] *)

Lemma startsWith_iff (s p : string) :
  startsWith s p = true <-> exists rest, s = p ++ rest.
Proof.
  revert s. induction p as [|b p IH]; intros s; simpl.
  - split; [exists s; reflexivity | reflexivity].
  - destruct s as [|a s]; simpl.
    + split; [discriminate | intros [rest H]; discriminate].
    + rewrite andb_true_iff, Ascii.eqb_eq, IH. split.
      * intros [-> [rest ->]]. now exists rest.
      * intros [rest H]. injection H as -> ->. split; [reflexivity | now exists rest].
Qed.

Lemma startsWith_append (p rest : string) : startsWith (p ++ rest) p = true.
Proof. apply startsWith_iff. now exists rest. Qed.

Lemma includes_iff (s sub : string) :
  includes s sub = true <-> exists a b, s = a ++ sub ++ b.
Proof.
  induction s as [|c s IH]; simpl.
  - rewrite orb_false_r, startsWith_iff. split.
    + intros [rest H]. exists "", rest. exact H.
    + intros [a [b H]]. symmetry in H.
      apply append_eq_nil in H as [-> H]. apply append_eq_nil in H as [-> ->].
      now exists "".
  - rewrite orb_true_iff, IH, startsWith_iff. split.
    + intros [[rest H] | [a [b H]]].
      * exists "", rest. exact H.
      * exists (String c a), b. simpl. now rewrite H.
    + intros [a [b H]]. destruct a as [|x a]; simpl in H.
      * left. now exists b.
      * right. injection H as _ H. now exists a, b.
Qed.

Lemma includes_intro (a sub b : string) : includes (a ++ sub ++ b) sub = true.
Proof. apply includes_iff. now exists a, b. Qed.

Lemma includes_append_l (a s sub : string) :
  includes s sub = true -> includes (a ++ s) sub = true.
Proof.
  rewrite !includes_iff. intros [x [y ->]]. exists (a ++ x), y.
  now rewrite append_assoc.
Qed.

Lemma includes_append_r (s b sub : string) :
  includes s sub = true -> includes (s ++ b) sub = true.
Proof.
  rewrite !includes_iff. intros [x [y ->]]. exists x, (y ++ b).
  now rewrite !append_assoc.
Qed.

Lemma includes_trans (s mid sub : string) :
  includes s mid = true -> includes mid sub = true -> includes s sub = true.
Proof.
  rewrite !includes_iff. intros [x [y ->]] [u [v ->]].
  exists (x ++ u), (v ++ y). now rewrite !append_assoc.
Qed.

Lemma includes_toUpperCase (s sub : string) :
  includes s sub = true ->
  includes (toUpperCase s) (toUpperCase sub) = true.
Proof.
  rewrite !includes_iff. intros [a [b ->]].
  exists (toUpperCase a), (toUpperCase b). now rewrite !toUpperCase_append.
Qed.

(** *** [join] *)

Lemma join_cons (sep x y : string) (l : list string) :
  join sep (x :: y :: l) = x ++ sep ++ join sep (y :: l).
Proof. reflexivity. Qed.

Lemma join_includes (sep x : string) (l : list string) :
  In x l -> includes (join sep l) x = true.
Proof.
  induction l as [|y l IH]; [intros [] |].
  intros [-> | Hin].
  - destruct l as [|z l].
    + simpl. apply includes_iff. exists "", "". simpl. now rewrite append_nil_r.
    + rewrite join_cons. apply (includes_intro "").
  - destruct l as [|z l]; [destruct Hin |].
    rewrite join_cons. apply includes_append_l, includes_append_l. now apply IH.
Qed.

End StringFacts.

(* ================================================================= *)
(** ** Arrays and sets *)

Section ArrayFacts.
Import Js.

Lemma arrIncludes_In (arr : list string) (x : string) :
  arrIncludes arr x = true <-> In x arr.
Proof.
  unfold arrIncludes. rewrite existsb_exists. split.
  - intros [y [Hin Heq]]. apply String.eqb_eq in Heq. now subst.
  - intros Hin. exists x. split; [exact Hin | apply String.eqb_refl].
Qed.

Lemma arrIncludes_not_In (arr : list string) (x : string) :
  arrIncludes arr x = false <-> ~ In x arr.
Proof.
  rewrite <- arrIncludes_In. destruct (arrIncludes arr x); split; congruence.
Qed.

Lemma arrIncludes_app (a b : list string) (x : string) :
  arrIncludes (a ++ b) x = arrIncludes a x || arrIncludes b x.
Proof. unfold arrIncludes. apply existsb_app. Qed.

Lemma filter_filter {A : Type} (f g : A -> bool) (l : list A) :
  filter f (filter g l) = filter (fun x => g x && f x) l.
Proof.
  induction l as [|x l IH]; simpl; [reflexivity |].
  destruct (g x); simpl; [destruct (f x) |]; now rewrite IH.
Qed.

Lemma filter_comm {A : Type} (f g : A -> bool) (l : list A) :
  filter f (filter g l) = filter g (filter f l).
Proof.
  rewrite !filter_filter. apply filter_ext. intros x. apply andb_comm.
Qed.

(** Building the set member by member from [acc] appends the members
    that are new, each at its first occurrence. *)
Lemma fold_setAdd (l acc : list string) :
  fold_left setAdd l acc
  = (acc ++ filter (fun y => negb (arrIncludes acc y)) (Spec.dedup l))%list.
Proof.
  revert acc. induction l as [|x l IH]; intros acc; simpl.
  - now rewrite app_nil_r.
  - rewrite IH. unfold setAdd.
    destruct (arrIncludes acc x) eqn:Hx; simpl.
    + f_equal. rewrite filter_filter. apply filter_ext_in. intros y _.
      destruct (String.eqb_spec y x) as [-> | _]; simpl; [now rewrite Hx | reflexivity].
    + rewrite <- app_assoc. simpl. do 2 f_equal.
      rewrite filter_filter. apply filter_ext_in. intros y _.
      rewrite arrIncludes_app. unfold arrIncludes at 2. simpl.
      rewrite orb_false_r, negb_orb. apply andb_comm.
Qed.

Lemma setOf_dedup (l : list string) : setOf l = Spec.dedup l.
Proof.
  unfold setOf. rewrite fold_setAdd. simpl.
  induction (Spec.dedup l) as [|x d IH]; simpl; [reflexivity | now rewrite IH].
Qed.

Lemma dedup_In (l : list string) (x : string) : In x (Spec.dedup l) <-> In x l.
Proof.
  induction l as [|y l IH]; simpl; [reflexivity |].
  rewrite filter_In, IH. split.
  - intros [-> | [Hin _]]; auto.
  - intros [-> | Hin]; [now left |].
    destruct (String.eqb_spec x y) as [-> | Hne]; [now left |].
    right. split; [exact Hin | reflexivity].
Qed.

Lemma dedup_NoDup (l : list string) : NoDup (Spec.dedup l).
Proof.
  induction l as [|x l IH]; simpl; constructor.
  - rewrite filter_In. intros [_ H]. now rewrite String.eqb_refl in H.
  - now apply NoDup_filter.
Qed.

Lemma dedup_filter (f : string -> bool) (l : list string) :
  Spec.dedup (filter f l) = filter f (Spec.dedup l).
Proof.
  induction l as [|x l IH]; simpl; [reflexivity |].
  destruct (f x) eqn:Hfx; simpl; rewrite IH, ?Hfx.
  - f_equal. apply filter_comm.
  - rewrite filter_filter. apply filter_ext_in. intros y _.
    destruct (String.eqb_spec y x) as [-> | _]; simpl; [exact Hfx | reflexivity].
Qed.

End ArrayFacts.

(* ================================================================= *)
(** ** White space *)

Section WhiteSpaceFacts.
Import Js.

Lemma trimStart_blank (s : string) : trimStart s = "" <-> Spec.blank s = true.
Proof.
  induction s as [|c s IH]; simpl; [tauto |].
  destruct (isWhiteSpace c); simpl; [exact IH |].
  split; discriminate.
Qed.

Lemma trimStart_head (s : string) :
  trimStart s = "" \/ exists c r, trimStart s = String c r /\ isWhiteSpace c = false.
Proof.
  induction s as [|c s IH]; simpl; [now left |].
  destruct (isWhiteSpace c) eqn:Hc; [exact IH |].
  right. now exists c, s.
Qed.

Lemma trimEnd_head (c : ascii) (s : string) :
  isWhiteSpace c = false -> trimEnd (String c s) <> "".
Proof.
  intros Hc. simpl. destruct (trimEnd s); [rewrite Hc |]; discriminate.
Qed.

Lemma trim_blank (s : string) : trim s = "" <-> Spec.blank s = true.
Proof.
  rewrite <- trimStart_blank. unfold trim.
  destruct (trimStart_head s) as [-> | [c [r [-> Hc]]]]; [tauto |].
  split; [| discriminate].
  intros H. now apply trimEnd_head in H.
Qed.

Lemma blank_empty : Spec.blank "" = true.
Proof. reflexivity. Qed.

(** The callback [c && c.trim()] keeps exactly the entries that are not
    blank. *)
Lemma nonBlank_blank (c : string) :
  SOQLBuilder.nonBlank c = negb (Spec.blank c).
Proof.
  unfold SOQLBuilder.nonBlank.
  destruct (Spec.blank c) eqn:Hb; simpl.
  - apply trim_blank in Hb. unfold truthy at 2. rewrite Hb. apply andb_false_r.
  - assert (Ht : trim c <> "") by (rewrite trim_blank; congruence).
    assert (Hc : c <> "") by (intros ->; discriminate).
    apply truthy_true in Ht, Hc. now rewrite Ht, Hc.
Qed.

Lemma trimEnd_append (a b : string) :
  b <> "" -> trimEnd b = b -> trimEnd (a ++ b) = a ++ b.
Proof.
  intros Hb Hfix. induction a as [|c a IH]; simpl; [exact Hfix |].
  rewrite IH. destruct (a ++ b) eqn:Hab; [| reflexivity].
  apply append_eq_nil in Hab. tauto.
Qed.

Lemma trimStart_head_fixed (c : ascii) (s : string) :
  isWhiteSpace c = false -> trimStart (String c s) = String c s.
Proof. intros Hc. simpl. now rewrite Hc. Qed.

(** *** Consecutive spaces *)

Ltac reassoc := repeat (first [rewrite append_assoc | progress simpl]).

Lemma doubled_cons (c : ascii) (s : string) :
  Spec.doubled (String c s) = ((c =? " ")%char && startsWith s " ") || Spec.doubled s.
Proof. reflexivity. Qed.

Lemma startsWith1_append (x y : string) (c b : ascii) :
  startsWith (x ++ String c y) (String b "")
  = startsWith (x ++ String c "") (String b "").
Proof. destruct x; reflexivity. Qed.

(** A text cut at any of its characters has a double space exactly when
    one of the two overlapping halves has one. *)
Lemma doubled_cut (x y : string) (c : ascii) :
  Spec.doubled (x ++ String c y) = Spec.doubled (x ++ String c "") || Spec.doubled (String c y).
Proof.
  induction x as [|d x IH].
  - simpl append. rewrite (doubled_cons c ""). simpl startsWith.
    now rewrite andb_false_r.
  - change (String d x ++ String c y) with (String d (x ++ String c y)).
    change (String d x ++ String c "") with (String d (x ++ String c "")).
    rewrite !doubled_cons, IH, startsWith1_append. now rewrite orb_assoc.
Qed.

Lemma doubled_last (x : string) (c : ascii) :
  Spec.doubled (x ++ " ") = false -> Spec.doubled (x ++ String c "") = false.
Proof.
  induction x as [|d x IH].
  - intros _. simpl append. rewrite doubled_cons. simpl.
    now rewrite andb_false_r.
  - change (String d x ++ " ") with (String d (x ++ " ")).
    change (String d x ++ String c "") with (String d (x ++ String c "")).
    rewrite !doubled_cons, !orb_false_iff. intros [H1 H2]. split; [| auto].
    destruct x as [|e x]; [| exact H1].
    simpl in H1 |- *. rewrite andb_false_iff in H1 |- *.
    destruct H1 as [H1 | H1]; [now left | discriminate].
Qed.

Lemma doubled_first (y : string) (c : ascii) :
  Spec.doubled (String " " y) = false -> Spec.doubled (String c y) = false.
Proof.
  rewrite !doubled_cons, !orb_false_iff. simpl. intros [H1 H2].
  rewrite H1. split; [apply andb_false_r | exact H2].
Qed.

Lemma doubled_inside (a s b : string) :
  Spec.doubled (a ++ s ++ b) = false -> Spec.doubled s = false.
Proof.
  intros H. destruct (Spec.doubled s) eqn:Hs; [| reflexivity].
  unfold Spec.doubled in *. rewrite <- H. symmetry.
  now apply includes_append_l, includes_append_r.
Qed.

Lemma tidy_iff (s : string) :
  Spec.tidy s = true <-> Spec.doubled (" " ++ s ++ " ") = false.
Proof. unfold Spec.tidy. apply negb_true_iff. Qed.

Lemma tidy_not_doubled (s : string) : Spec.tidy s = true -> Spec.doubled s = false.
Proof. rewrite tidy_iff. apply doubled_inside. Qed.

(** Two tidy strings with one space between them. *)
Lemma tidy_space (a b : string) :
  Spec.tidy a = true -> Spec.tidy b = true -> Spec.tidy (a ++ " " ++ b) = true.
Proof.
  rewrite !tidy_iff. intros Ha Hb.
  replace (" " ++ (a ++ " " ++ b) ++ " ")
    with ((" " ++ a) ++ String " " (b ++ " "))
    by (now reassoc).
  rewrite doubled_cut. apply orb_false_iff. split.
  - simpl in Ha |- *. now rewrite ?append_assoc.
  - exact Hb.
Qed.

(** Two tidy strings with, between them, a separator that begins with
    [c1] and ends with [c2]. *)
Lemma tidy_sep (c1 c2 : ascii) (mid a b : string) :
  Spec.doubled (String c1 (mid ++ String c2 "")) = false ->
  Spec.tidy a = true -> Spec.tidy b = true ->
  Spec.tidy (a ++ String c1 (mid ++ String c2 b)) = true.
Proof.
  rewrite !tidy_iff. intros Hsep Ha Hb.
  replace (" " ++ (a ++ String c1 (mid ++ String c2 b)) ++ " ")
    with ((" " ++ a) ++ String c1 (mid ++ String c2 (b ++ " ")))
    by (now reassoc).
  rewrite doubled_cut. apply orb_false_iff. split.
  - apply doubled_last. simpl in Ha |- *. now rewrite ?append_assoc.
  - replace (String c1 (mid ++ String c2 (b ++ " ")))
      with ((String c1 mid) ++ String c2 (b ++ " ")) by reflexivity.
    rewrite doubled_cut. apply orb_false_iff. split; [exact Hsep |].
    now apply doubled_first.
Qed.

Lemma tidy_join (c1 c2 : ascii) (mid : string) (l : list string) :
  Spec.doubled (String c1 (mid ++ String c2 "")) = false ->
  Forall (fun s => Spec.tidy s = true) l -> l <> [] ->
  Spec.tidy (join (String c1 (mid ++ String c2 "")) l) = true.
Proof.
  intros Hsep Hall. induction Hall as [|x l Hx Hall IH]; [congruence |].
  intros _. destruct l as [|y l]; [exact Hx |].
  rewrite join_cons.
  replace (x ++ String c1 (mid ++ String c2 "") ++ join (String c1 (mid ++ String c2 "")) (y :: l))
    with (x ++ String c1 (mid ++ String c2 (join (String c1 (mid ++ String c2 "")) (y :: l))))
    by (now reassoc).
  apply tidy_sep; [exact Hsep | exact Hx |].
  apply IH. discriminate.
Qed.

End WhiteSpaceFacts.

(* ================================================================= *)
(** ** The schema and the tables of the builder *)

Section CatalogFacts.
Import Js SOQLBuilder.

Lemma inCatalog_cases (object : string) :
  Spec.inCatalog object ->
  object = "Account" \/ object = "Contact" \/ object = "Lead" \/
  object = "Opportunity" \/ object = "Case" \/ object = "Task" \/
  object = "Event".
Proof.
  unfold Spec.inCatalog, SalesforceMapping.isValidObject, hasOwnProperty,
    SalesforceMapping.objects.
  cbn [assoc].
  repeat match goal with
         | |- context [String.eqb ?k object] =>
             destruct (String.eqb_spec k object) as [<- | _]; [tauto |]
         end.
  discriminate.
Qed.

Ltac each_object H :=
  apply inCatalog_cases in H;
  destruct H as [-> | [-> | [-> | [-> | [-> | [-> | ->]]]]]].

Lemma catalog_own (object : string) :
  Spec.inCatalog object -> exists info, get schemaObjects object = Own info.
Proof. intros H. each_object H; eexists; reflexivity. Qed.

Lemma own_inCatalog (object : string) (info : SalesforceMapping.objectInfo) :
  get schemaObjects object = Own info -> Spec.inCatalog object.
Proof.
  unfold get, Spec.inCatalog, SalesforceMapping.isValidObject, hasOwnProperty,
    schemaObjects.
  destruct (assoc object SalesforceMapping.objects); [reflexivity |].
  destruct (assoc object Object_prototype); discriminate.
Qed.

Lemma catalog_defaultConditions (object : string) :
  Spec.inCatalog object -> getDefaultConditions object = Arr ["IsDeleted = false"].
Proof. intros H. each_object H; reflexivity. Qed.

Lemma catalog_orderBy (object : string) :
  Spec.inCatalog object ->
  exists first rest,
    getOrderByFields object = Arr (first :: rest) /\
    Spec.tidy (join ", " (first :: rest)) = true.
Proof. intros H. each_object H; do 2 eexists; split; reflexivity. Qed.

Lemma catalog_defaultFields (object : string) (info : SalesforceMapping.objectInfo) :
  get schemaObjects object = Own info ->
  exists rest,
    getDefaultFields object = Arr ("Id" :: rest) /\
    arrIncludes rest "Id" = false /\
    filter (knownField info) rest = rest /\
    In "CreatedDate" rest /\
    Forall (fun f => Spec.tidy f = true) ("Id" :: rest).
Proof.
  intros Hown. pose proof (own_inCatalog _ _ Hown) as H.
  each_object H; injection Hown as <-; eexists;
    (split; [reflexivity |]); (split; [reflexivity |]);
    (split; [vm_compute; reflexivity |]);
    (split; [simpl; tauto |]);
    repeat constructor.
Qed.

Lemma catalog_name_tidy (object : string) :
  Spec.inCatalog object -> Spec.tidy object = true.
Proof. intros H. each_object H; reflexivity. Qed.

Lemma knownField_Id (info : SalesforceMapping.objectInfo) : knownField info "Id" = true.
Proof.
  unfold knownField. replace (arrIncludes standardFields "Id") with true by reflexivity.
  apply orb_true_r.
Qed.

(** *** The select list of an object of the schema *)

Lemma isFieldValid_own (object field : string) (info : SalesforceMapping.objectInfo) :
  get schemaObjects object = Own info ->
  isFieldValid field object = Return (knownField info field).
Proof. unfold isFieldValid. now intros ->. Qed.

Lemma filterM_own (object : string) (info : SalesforceMapping.objectInfo)
      (l : list string) :
  get schemaObjects object = Own info ->
  filterM (fun field => isFieldValid field object) l
  = Return (filter (knownField info) l).
Proof.
  intros Hown. induction l as [|x l IH]; simpl; [reflexivity |].
  rewrite (isFieldValid_own _ _ _ Hown), IH. simpl.
  now destruct (knownField info x).
Qed.

Lemma ensureId_In (l : list string) : In "Id" (ensureId l).
Proof.
  unfold ensureId. destruct (arrIncludes l "Id") eqn:H.
  - now apply arrIncludes_In.
  - now left.
Qed.

Lemma validate_own (object : string) (info : SalesforceMapping.objectInfo)
      (l : list string) :
  get schemaObjects object = Own info ->
  validate (ensureId l) object = Return (filter (knownField info) (ensureId l)).
Proof.
  intros Hown. unfold validate. rewrite (filterM_own _ _ _ Hown). simpl.
  assert (Hin : In "Id" (filter (knownField info) (ensureId l))).
  { apply filter_In. split; [apply ensureId_In | apply knownField_Id]. }
  destruct (filter (knownField info) (ensureId l)); [destruct Hin | reflexivity].
Qed.

Lemma selectFields_own (object : string) (info : SalesforceMapping.objectInfo)
      (fields : list string) :
  get schemaObjects object = Own info ->
  exists defaults,
    getDefaultFields object = Arr defaults /\
    selectFields fields object
    = Return (match fields with [] => [] | _ => ensureId fields end,
              filter (knownField info)
                     (ensureId (match fields with [] => defaults | _ => fields end))).
Proof.
  intros Hown.
  destruct (catalog_defaultFields _ _ Hown) as [rest [Hd _]].
  exists ("Id" :: rest). split; [exact Hd |].
  unfold selectFields. destruct fields as [|f fields].
  - simpl Nat.eqb. cbv iota. rewrite Hd, (validate_own _ _ _ Hown). reflexivity.
  - simpl Nat.eqb. cbv iota. rewrite (validate_own _ _ _ Hown). reflexivity.
Qed.

(** *** The WHERE clause of an object of the schema *)

Lemma setOf_filter_nonBlank (l : list string) :
  setOf (filter nonBlank l) = filter (fun p => negb (Spec.blank p)) (Spec.dedup l).
Proof.
  rewrite setOf_dedup, dedup_filter. apply filter_ext. exact nonBlank_blank.
Qed.

Lemma buildWhereClause_catalog (conditions : list string) (query object : string) :
  Spec.inCatalog object ->
  buildWhereClause conditions query object
  = Return (Spec.whereClause conditions
              (extractConditionsFromQuery query object) ["IsDeleted = false"]).
Proof.
  intros Hcat. unfold buildWhereClause.
  rewrite (catalog_defaultConditions _ Hcat).
  set (all := (conditions ++ extractConditionsFromQuery query object
                          ++ ["IsDeleted = false"])%list).
  assert (Hlen : Nat.eqb (List.length all) 0 = false).
  { apply Nat.eqb_neq. unfold all. rewrite !length_app. simpl. lia. }
  rewrite Hlen, setOf_filter_nonBlank.
  unfold Spec.whereClause, Spec.predicates. fold all.
  now destruct (filter (fun p => negb (Spec.blank p)) (Spec.dedup all)).
Qed.

(** The default filter always survives. *)
Lemma predicates_default (conditions scanned : list string) :
  In "IsDeleted = false" (Spec.predicates conditions scanned ["IsDeleted = false"]).
Proof.
  unfold Spec.predicates. apply filter_In. split; [| reflexivity].
  apply dedup_In. rewrite !in_app_iff. right. right. now left.
Qed.

Lemma whereClause_present (conditions scanned : list string) :
  Spec.whereClause conditions scanned ["IsDeleted = false"]
  = "WHERE " ++ join " AND " (Spec.predicates conditions scanned ["IsDeleted = false"]).
Proof.
  unfold Spec.whereClause.
  pose proof (predicates_default conditions scanned) as Hin.
  now destruct (Spec.predicates conditions scanned ["IsDeleted = false"]).
Qed.

Lemma buildOrderByClause_catalog (object : string) :
  Spec.inCatalog object ->
  exists first rest,
    getOrderByFields object = Arr (first :: rest) /\
    Spec.tidy (join ", " (first :: rest)) = true /\
    buildOrderByClause object = Return ("ORDER BY " ++ join ", " (first :: rest)).
Proof.
  intros Hcat. destruct (catalog_orderBy _ Hcat) as [first [rest [Ho Ht]]].
  exists first, rest. repeat split; [exact Ho | exact Ht |].
  unfold buildOrderByClause. now rewrite Ho.
Qed.

(** *** The assembled text *)

Lemma append_nonempty_r (a b : string) : b <> "" -> a ++ b <> "".
Proof. intros Hb H. apply append_eq_nil in H. tauto. Qed.

Lemma trim_text (select rest : string) :
  trim (("SELECT " ++ select) ++ rest ++ " " ++ "LIMIT 1000")
  = ("SELECT " ++ select) ++ rest ++ " " ++ "LIMIT 1000".
Proof.
  unfold trim.
  change (("SELECT " ++ select) ++ rest ++ " " ++ "LIMIT 1000")
    with (String "S" (("ELECT " ++ select) ++ rest ++ " " ++ "LIMIT 1000")).
  rewrite trimStart_head_fixed by reflexivity.
  change (String "S" (("ELECT " ++ select) ++ rest ++ " " ++ "LIMIT 1000"))
    with (("SELECT " ++ select) ++ rest ++ " " ++ "LIMIT 1000").
  repeat (apply trimEnd_append;
          [repeat first [discriminate | apply append_nonempty_r] |]).
  reflexivity.
Qed.

(** What [generateSOQL] computes for an Intent on an object of the
    schema, in closed form. *)
Lemma generate_catalog (ai : OpenAIService.aiResponse) (query : string)
      (info : SalesforceMapping.objectInfo) :
  OpenAIService.success ai = true ->
  get schemaObjects (OpenAIService.object ai) = Own info ->
  exists kept validFields whereClause orderByClause,
    selectFields (OpenAIService.fields ai) (OpenAIService.object ai)
    = Return (kept, validFields) /\
    buildWhereClause (OpenAIService.conditions ai) query (OpenAIService.object ai)
    = Return whereClause /\
    buildOrderByClause (OpenAIService.object ai) = Return orderByClause /\
    generate ai query
    = Return {| soql := ("SELECT " ++ join ", " validFields)
                        ++ (" " ++ buildFromClause (OpenAIService.object ai)
                            ++ " " ++ whereClause ++ " " ++ orderByClause)
                        ++ " " ++ "LIMIT 1000";
                fields := kept;
                object := OpenAIService.object ai;
                conditions := OpenAIService.conditions ai |}.
Proof.
  intros Hsucc Hown. pose proof (own_inCatalog _ _ Hown) as Hcat.
  destruct (selectFields_own _ _ (OpenAIService.fields ai) Hown)
    as [defaults [_ Hsel]].
  destruct (buildOrderByClause_catalog _ Hcat) as [first [rest [_ [_ Hord]]]].
  do 4 eexists. split; [exact Hsel |].
  split; [apply (buildWhereClause_catalog _ _ _ Hcat) |].
  split; [exact Hord |].
  unfold generate. rewrite Hsucc, Hown. cbv beta iota. simpl negb. cbv iota.
  unfold buildSelectClause. rewrite Hsel.
  rewrite (buildWhereClause_catalog _ _ _ Hcat), Hord.
  cbn [bind fst snd]. f_equal. f_equal.
  rewrite <- trim_text. f_equal. now rewrite !append_assoc.
Qed.

End CatalogFacts.

(* ================================================================= *)
(** ** The scenario of the high-revenue accounts *)

Section Scenario.
Import Js SOQLBuilder.

(** C1, as the specification words it, does not hold: for the query
    "Show me accounts with high revenue" the fallback Intent does not have
    an empty field list, and the text assembled from it is not the text
    of the scenario. *)
Lemma fallback_scenario_as_specified_fails :
  ~ (let ai := OpenAIService.fallbackProcessing Spec.highRevenueQuery in
     OpenAIService.object ai = "Account" /\
     OpenAIService.fields ai = [] /\
     OpenAIService.conditions ai = [] /\
     extractConditionsFromQuery Spec.highRevenueQuery "Account"
     = ["AnnualRevenue > 1000000"] /\
     exists g, generateSOQL ai Spec.highRevenueQuery = Success g /\
               soql g = Spec.highRevenueText).
Proof. intros [_ [H _]]. discriminate H. Qed.

(** C1 (amended): for the query "Show me accounts with high revenue" and
    no output of the language model, the fallback Intent is
    {object: Account, fields: [Id, Name, CreatedDate], conditions: []}, the
    scan of the query adds AnnualRevenue > 1000000, and the assembled text
    is "SELECT Id, Name, CreatedDate FROM Account WHERE AnnualRevenue >
    1000000 AND IsDeleted = false ORDER BY Name LIMIT 1000".  The text of
    the scenario, with the five default fields of Account, is what the
    assembler produces from the Intent with an empty field list. *)
Theorem fallback_scenario :
  let ai := OpenAIService.fallbackProcessing Spec.highRevenueQuery in
  OpenAIService.object ai = "Account" /\
  OpenAIService.fields ai = ["Id"; "Name"; "CreatedDate"] /\
  OpenAIService.conditions ai = [] /\
  extractConditionsFromQuery Spec.highRevenueQuery "Account"
  = ["AnnualRevenue > 1000000"] /\
  generateSOQL ai Spec.highRevenueQuery
  = Success {| soql := "SELECT Id, Name, CreatedDate FROM Account WHERE AnnualRevenue > 1000000 AND IsDeleted = false ORDER BY Name LIMIT 1000";
               fields := ["Id"; "Name"; "CreatedDate"];
               object := "Account";
               conditions := [] |} /\
  generateSOQL (Spec.intent "Account" [] []) Spec.highRevenueQuery
  = Success {| soql := Spec.highRevenueText;
               fields := [];
               object := "Account";
               conditions := [] |}.
Proof. repeat split; vm_compute; reflexivity. Qed.

End Scenario.

(* ================================================================= *)
(** ** The shape of the assembled text *)

Section Assembly.
Import Js SOQLBuilder.

Ltac reassoc := repeat (first [rewrite append_assoc | progress simpl]).

Lemma extracted_tidy (query object : string) :
  Forall (fun c => Spec.tidy c = true) (extractConditionsFromQuery query object).
Proof.
  unfold extractConditionsFromQuery.
  repeat match goal with
         | |- Forall _ (_ ++ _)%list => apply Forall_app; split
         | |- context [if ?b then _ else _] => destruct b
         end;
    repeat constructor.
Qed.

Lemma predicates_incl (conditions scanned defaults : list string) (p : string) :
  In p (Spec.predicates conditions scanned defaults) ->
  In p (conditions ++ scanned ++ defaults)%list.
Proof.
  unfold Spec.predicates. rewrite filter_In, dedup_In. tauto.
Qed.

Lemma predicates_tidy (conditions scanned defaults : list string) :
  Forall (fun c => Spec.tidy c = true) conditions ->
  Forall (fun c => Spec.tidy c = true) scanned ->
  Forall (fun c => Spec.tidy c = true) defaults ->
  Forall (fun c => Spec.tidy c = true) (Spec.predicates conditions scanned defaults).
Proof.
  intros Hc Hs Hd. apply Forall_forall. intros p Hp.
  apply predicates_incl in Hp.
  assert (Hall : Forall (fun c => Spec.tidy c = true)
                        (conditions ++ scanned ++ defaults)%list)
    by (repeat (apply Forall_app; split); assumption).
  rewrite Forall_forall in Hall. now apply Hall.
Qed.

Lemma ensureId_tidy (l : list string) :
  Forall (fun f => Spec.tidy f = true) l ->
  Forall (fun f => Spec.tidy f = true) (ensureId l).
Proof.
  intros H. unfold ensureId. destruct (arrIncludes l "Id"); [exact H |].
  constructor; [reflexivity | exact H].
Qed.

Lemma filter_tidy (f : string -> bool) (l : list string) :
  Forall (fun f => Spec.tidy f = true) l ->
  Forall (fun f => Spec.tidy f = true) (filter f l).
Proof.
  rewrite !Forall_forall. intros H x Hx. apply filter_In in Hx. now apply H.
Qed.

Lemma tidy_keyword (keyword rest : string) :
  Spec.tidy keyword = true -> Spec.tidy rest = true ->
  Spec.tidy (keyword ++ " " ++ rest) = true.
Proof. apply tidy_space. Qed.

Lemma assemble_five (a b c d e : string) :
  a <> "" -> b <> "" -> c <> "" -> d <> "" -> e <> "" ->
  Spec.assemble [a; b; c; d; e]
  = trimEnd (a ++ " " ++ b ++ " " ++ c ++ " " ++ d ++ " " ++ e).
Proof.
  intros Ha Hb Hc Hd He. unfold Spec.assemble.
  apply truthy_true in Ha, Hb, Hc, Hd, He.
  cbn [filter]. now rewrite Ha, Hb, Hc, Hd, He.
Qed.

Lemma trimEnd_limit (prefix : string) :
  trimEnd (prefix ++ "LIMIT 1000") = prefix ++ "LIMIT 1000".
Proof. apply trimEnd_append; [discriminate | reflexivity]. Qed.

Lemma trimEnd_text (a b c d : string) :
  trimEnd (a ++ " " ++ b ++ " " ++ c ++ " " ++ d ++ " " ++ "LIMIT 1000")
  = a ++ " " ++ b ++ " " ++ c ++ " " ++ d ++ " " ++ "LIMIT 1000".
Proof.
  replace (a ++ " " ++ b ++ " " ++ c ++ " " ++ d ++ " " ++ "LIMIT 1000")
    with ((a ++ " " ++ b ++ " " ++ c ++ " " ++ d ++ " ") ++ "LIMIT 1000")
    by (now rewrite !append_assoc).
  apply trimEnd_limit.
Qed.

(** The single spaces are those that join the clauses.  What stands inside
    a clause is copied as it came: a condition that compares with a literal
    holding two spaces is found in the text with its two spaces. *)
Lemma assembled_text_double_space :
  Spec.inCatalog "Account" /\
  generateSOQL (Spec.intent "Account" [] ["Name = 'Acme  Corp'"]) "all accounts"
  = Success {| soql := "SELECT Id, Name, Industry, Type, CreatedDate FROM Account WHERE Name = 'Acme  Corp' AND IsDeleted = false ORDER BY Name LIMIT 1000";
               fields := [];
               object := "Account";
               conditions := ["Name = 'Acme  Corp'"] |} /\
  Spec.doubled "SELECT Id, Name, Industry, Type, CreatedDate FROM Account WHERE Name = 'Acme  Corp' AND IsDeleted = false ORDER BY Name LIMIT 1000"
  = true.
Proof. repeat split; vm_compute; reflexivity. Qed.

(** C2: for every Intent whose objectName is in the Schema Catalog, the
    assembled text is one SELECT clause, one FROM clause, one WHERE clause,
    one ORDER BY clause and the clause LIMIT 1000, in that order, joined by
    single spaces; none of the clauses is empty, and the text is the join
    of the five clauses with single spaces that skips empty ones, so that
    two clauses are never more than one space apart.  The text has no
    trailing white space.  Moreover the whole text has no two consecutive
    spaces when no field name and no condition of the Intent is empty,
    begins or ends with a space, or has two consecutive spaces itself. *)
Theorem assembled_text_shape (ai : OpenAIService.aiResponse) (query : string) :
  OpenAIService.success ai = true ->
  Spec.inCatalog (OpenAIService.object ai) ->
  exists g validFields predicates orderFields,
    generateSOQL ai query = Success g /\
    selectFields (OpenAIService.fields ai) (OpenAIService.object ai)
    = Return (fields g, validFields) /\
    buildWhereClause (OpenAIService.conditions ai) query (OpenAIService.object ai)
    = Return ("WHERE " ++ join " AND " predicates) /\
    buildOrderByClause (OpenAIService.object ai)
    = Return ("ORDER BY " ++ join ", " orderFields) /\
    validFields <> [] /\ predicates <> [] /\ orderFields <> [] /\
    soql g = "SELECT " ++ join ", " validFields
             ++ " " ++ "FROM " ++ OpenAIService.object ai
             ++ " " ++ "WHERE " ++ join " AND " predicates
             ++ " " ++ "ORDER BY " ++ join ", " orderFields
             ++ " " ++ "LIMIT 1000" /\
    soql g = Spec.assemble [ "SELECT " ++ join ", " validFields;
                             "FROM " ++ OpenAIService.object ai;
                             "WHERE " ++ join " AND " predicates;
                             "ORDER BY " ++ join ", " orderFields;
                             "LIMIT 1000" ] /\
    trimEnd (soql g) = soql g /\
    (Forall (fun f => Spec.tidy f = true) (OpenAIService.fields ai) ->
     Forall (fun c => Spec.tidy c = true) (OpenAIService.conditions ai) ->
     Spec.doubled (soql g) = false).
Proof.
  intros Hsucc Hcat.
  destruct (catalog_own _ Hcat) as [info Hown].
  destruct (generate_catalog ai query info Hsucc Hown)
    as [kept [vf [w [o [Hsel [Hw [Ho Hgen]]]]]]].
  destruct (selectFields_own _ _ (OpenAIService.fields ai) Hown)
    as [defaults [Hdef Hsel']].
  destruct (catalog_defaultFields _ _ Hown)
    as [drest [Hdef' [_ [_ [_ Hdtidy]]]]].
  assert (Edef : defaults = "Id" :: drest) by congruence.
  assert (Evf : vf = filter (knownField info)
                       (ensureId match OpenAIService.fields ai with
                                 | [] => defaults
                                 | _ :: _ => OpenAIService.fields ai
                                 end)) by congruence.
  pose proof (buildWhereClause_catalog (OpenAIService.conditions ai) query _ Hcat)
    as Hw'.
  rewrite whereClause_present in Hw'.
  set (preds := Spec.predicates (OpenAIService.conditions ai)
                  (extractConditionsFromQuery query (OpenAIService.object ai))
                  ["IsDeleted = false"]) in *.
  assert (Ew : w = "WHERE " ++ join " AND " preds) by congruence.
  destruct (buildOrderByClause_catalog _ Hcat) as [ofirst [orest [_ [Hotidy Ho']]]].
  assert (Eo : o = "ORDER BY " ++ join ", " (ofirst :: orest)) by congruence.
  assert (Hvf : vf <> []).
  { assert (Hin : In "Id" vf)
      by (rewrite Evf; apply filter_In; split;
          [apply ensureId_In | apply knownField_Id]).
    intros E. now rewrite E in Hin. }
  assert (Hpreds : preds <> []).
  { pose proof (predicates_default (OpenAIService.conditions ai)
                  (extractConditionsFromQuery query (OpenAIService.object ai))) as Hin.
    fold preds in Hin. intros E. now rewrite E in Hin. }
  assert (Htext :
    ("SELECT " ++ join ", " vf)
    ++ (" " ++ buildFromClause (OpenAIService.object ai) ++ " " ++ w ++ " " ++ o)
    ++ " " ++ "LIMIT 1000"
    = "SELECT " ++ join ", " vf
      ++ " " ++ "FROM " ++ OpenAIService.object ai
      ++ " " ++ "WHERE " ++ join " AND " preds
      ++ " " ++ "ORDER BY " ++ join ", " (ofirst :: orest)
      ++ " " ++ "LIMIT 1000").
  { rewrite Ew, Eo. unfold buildFromClause.
    generalize (join ", " vf), (join " AND " preds), (join ", " (ofirst :: orest)).
    intros a b c. now reassoc. }
  rewrite Htext in Hgen. clear Htext.
  eexists _, vf, preds, (ofirst :: orest).
  split; [unfold generateSOQL; rewrite Hgen; reflexivity |].
  cbn [soql fields].
  split; [exact Hsel |].
  split; [exact Hw' |].
  split; [exact Ho' |].
  split; [exact Hvf |].
  split; [exact Hpreds |].
  split; [discriminate |].
  split; [reflexivity |].
  split.
  { rewrite assemble_five by discriminate. symmetry.
    apply (trimEnd_text ("SELECT " ++ join ", " vf)
                        ("FROM " ++ OpenAIService.object ai)
                        ("WHERE " ++ join " AND " preds)
                        ("ORDER BY " ++ join ", " (ofirst :: orest))). }
  split.
  { apply (trimEnd_text ("SELECT " ++ join ", " vf)
                        ("FROM " ++ OpenAIService.object ai)
                        ("WHERE " ++ join " AND " preds)
                        ("ORDER BY " ++ join ", " (ofirst :: orest))). }
  intros Hfields Hconds. apply tidy_not_doubled.
  assert (Tsel : Spec.tidy ("SELECT " ++ join ", " vf) = true).
  { apply (tidy_keyword "SELECT"); [reflexivity |].
    apply (tidy_join "," " " ""); [reflexivity | | exact Hvf].
    rewrite Evf. apply filter_tidy, ensureId_tidy.
    destruct (OpenAIService.fields ai); [now rewrite Edef | exact Hfields]. }
  assert (Tfrom : Spec.tidy ("FROM " ++ OpenAIService.object ai) = true).
  { apply (tidy_keyword "FROM"); [reflexivity | now apply catalog_name_tidy]. }
  assert (Twhere : Spec.tidy ("WHERE " ++ join " AND " preds) = true).
  { apply (tidy_keyword "WHERE"); [reflexivity |].
    apply (tidy_join " " " " "AND"); [reflexivity | | exact Hpreds].
    apply predicates_tidy;
      [exact Hconds | apply extracted_tidy | repeat constructor]. }
  assert (Torder : Spec.tidy ("ORDER BY " ++ join ", " (ofirst :: orest)) = true).
  { apply (tidy_keyword "ORDER BY"); [reflexivity | exact Hotidy]. }
  repeat (apply tidy_space; [assumption |]).
  reflexivity.
Qed.


Lemma assembled_text_shape_witness :
  OpenAIService.success
    (Spec.intent "Opportunity" ["Name"; "Amount"] ["StageName = 'Closed Won'"]) = true /\
  Spec.inCatalog "Opportunity" /\
  exists g,
    generateSOQL
      (Spec.intent "Opportunity" ["Name"; "Amount"] ["StageName = 'Closed Won'"])
      "deals this year" = Success g /\
    trimEnd (soql g) = soql g /\
    Spec.doubled (soql g) = false.
Proof.
  split; [reflexivity | split; [reflexivity |]].
  destruct (assembled_text_shape
              (Spec.intent "Opportunity" ["Name"; "Amount"] ["StageName = 'Closed Won'"])
              "deals this year" eq_refl eq_refl)
    as [g [vf [preds [ord [Hg [_ [_ [_ [_ [_ [_ [_ [_ [Htrim Hd]]]]]]]]]]]]]].
  exists g. split; [exact Hg |]. split; [exact Htrim |].
  apply Hd; repeat constructor.
Defined.

End Assembly.

(* ================================================================= *)
(** ** The validator on the assembler's own output *)

Section ValidatorOnGenerated.
Import Js SOQLBuilder.

Lemma firstForbidden_found (upperSoql keyword : string) (keywords : list string) :
  In keyword keywords -> includes upperSoql keyword = true ->
  exists first,
    firstForbidden upperSoql keywords = Some first /\
    In first keywords /\ includes upperSoql first = true.
Proof.
  induction keywords as [|k keywords IH]; [intros [] |].
  intros Hin Hinc. simpl.
  destruct (includes upperSoql k) eqn:Hk.
  - exists k. repeat split; [now left | exact Hk].
  - destruct Hin as [-> | Hin]; [congruence |].
    destruct (IH Hin Hinc) as [first [Hf [Hin' Hinc']]].
    exists first. repeat split; [exact Hf | now right | exact Hinc'].
Qed.

Lemma firstForbidden_none (upperSoql : string) (keywords : list string) :
  firstForbidden upperSoql keywords = None <->
  forall keyword, In keyword keywords -> includes upperSoql keyword = false.
Proof.
  induction keywords as [|k keywords IH]; simpl.
  - split; [intros _ ? [] | reflexivity].
  - destruct (includes upperSoql k) eqn:Hk.
    + split; [discriminate |]. intros H. specialize (H k (or_introl eq_refl)). congruence.
    + rewrite IH. split.
      * intros H keyword [<- | Hin]; [exact Hk | now apply H].
      * intros H keyword Hin. apply H. now right.
Qed.

(** C3: for every Intent whose objectName is in the Schema Catalog,
    [validateSOQL] applied to the text that [generateSOQL] produces returns
    invalid with a forbidden-keyword reason.  The WHERE clause always ends up
    with the default filter "IsDeleted = false", so the upper-cased text
    contains "DELETE"; the keyword reported is the first of the list that
    the text contains.  The default field list of the object also has
    "CreatedDate", whose upper-casing contains "CREATE". *)
Theorem validator_rejects_generated (ai : OpenAIService.aiResponse) (query : string) :
  OpenAIService.success ai = true ->
  Spec.inCatalog (OpenAIService.object ai) ->
  exists g keyword,
    generateSOQL ai query = Success g /\
    includes (soql g) "IsDeleted = false" = true /\
    includes (toUpperCase (soql g)) "DELETE" = true /\
    In keyword forbiddenKeywords /\
    includes (toUpperCase (soql g)) keyword = true /\
    validateSOQL (soql g) = invalid ("Forbidden keyword detected: " ++ keyword) /\
    isValid (validateSOQL (soql g)) = false /\
    exists defaults,
      getDefaultFields (OpenAIService.object ai) = Arr defaults /\
      In "CreatedDate" defaults /\
      includes (toUpperCase "CreatedDate") "CREATE" = true.
Proof.
  intros Hsucc Hcat.
  destruct (catalog_own _ Hcat) as [info Hown].
  destruct (generate_catalog ai query info Hsucc Hown)
    as [kept [vf [w [o [Hsel [Hw [Ho Hgen]]]]]]].
  pose proof (buildWhereClause_catalog (OpenAIService.conditions ai) query _ Hcat)
    as Hw'.
  rewrite whereClause_present in Hw'.
  assert (Ew : w = "WHERE " ++ join " AND "
                     (Spec.predicates (OpenAIService.conditions ai)
                        (extractConditionsFromQuery query (OpenAIService.object ai))
                        ["IsDeleted = false"])) by congruence.
  set (text := ("SELECT " ++ join ", " vf)
               ++ (" " ++ buildFromClause (OpenAIService.object ai)
                   ++ " " ++ w ++ " " ++ o)
               ++ " " ++ "LIMIT 1000") in *.
  assert (Hdel : includes text "IsDeleted = false" = true).
  { unfold text. apply includes_append_l, includes_append_r.
    do 3 apply includes_append_l. apply includes_append_r.
    rewrite Ew. apply includes_append_l, join_includes, predicates_default. }
  assert (Hsel1 : includes (toUpperCase text) "SELECT " = true).
  { apply (includes_toUpperCase text "SELECT ").
    unfold text. rewrite append_assoc.
    apply includes_iff. exists "". eexists. reflexivity. }
  assert (Hfrom : includes (toUpperCase text) " FROM " = true).
  { apply (includes_toUpperCase text " FROM ").
    unfold text, buildFromClause. apply includes_append_l, includes_append_r.
    apply includes_iff. exists "". eexists. simpl. reflexivity. }
  assert (HDEL : includes (toUpperCase text) "DELETE" = true).
  { apply includes_trans with (mid := toUpperCase "IsDeleted = false").
    - now apply includes_toUpperCase.
    - reflexivity. }
  destruct (firstForbidden_found (toUpperCase text) "DELETE" forbiddenKeywords)
    as [keyword [Hfirst [Hin Hinc]]]; [simpl; tauto | exact HDEL |].
  assert (Hval : validateSOQL text = invalid ("Forbidden keyword detected: " ++ keyword)).
  { unfold validateSOQL.
    assert (Ht : truthy text = true) by (apply truthy_true; discriminate).
    rewrite Ht, Hsel1, Hfrom, Hfirst. reflexivity. }
  destruct (catalog_defaultFields _ _ Hown) as [drest [Hdef [_ [_ [Hcd _]]]]].
  eexists _, keyword.
  split; [unfold generateSOQL; rewrite Hgen; reflexivity |].
  cbn [soql]. fold text. rewrite Hval.
  repeat split; try assumption.
  exists ("Id" :: drest). repeat split; [exact Hdef | now right].
Qed.

Lemma validator_rejects_generated_witness :
  OpenAIService.success (Spec.intent "Contact" ["Name"; "Email"] []) = true /\
  Spec.inCatalog "Contact" /\
  exists g,
    generateSOQL (Spec.intent "Contact" ["Name"; "Email"] []) "contacts"
    = Success g /\
    isValid (validateSOQL (soql g)) = false.
Proof.
  split; [reflexivity | split; [reflexivity |]].
  destruct (validator_rejects_generated
              (Spec.intent "Contact" ["Name"; "Email"] []) "contacts"
              eq_refl eq_refl)
    as [g [keyword [Hg [_ [_ [_ [_ [_ [Hinvalid _]]]]]]]]].
  exists g. split; [exact Hg | exact Hinvalid].
Defined.

End ValidatorOnGenerated.

(* ================================================================= *)
(** ** The field list of the SELECT clause *)

Section SelectFields.
Import Js SOQLBuilder.

Lemma count_occ_filter (f : string -> bool) (l : list string) (x : string) :
  f x = true ->
  count_occ string_dec (filter f l) x = count_occ string_dec l x.
Proof.
  intros Hfx. induction l as [|y l IH]; simpl; [reflexivity |].
  destruct (string_dec y x) as [-> | Hne].
  - rewrite Hfx. simpl. destruct (string_dec x x); congruence.
  - destruct (f y); simpl; [destruct (string_dec y x); congruence | exact IH].
Qed.

(** C4, as the specification words it, does not hold: a field list that
    names "Id" after another valid field keeps it there, and a list that
    names it twice keeps both. *)
Lemma select_fields_Id_not_first :
  Spec.inCatalog "Account" /\
  selectFields ["Name"; "Id"] "Account" = Return (["Name"; "Id"], ["Name"; "Id"]) /\
  buildSelectClause ["Name"; "Id"] "Account" = Return (["Name"; "Id"], "SELECT Name, Id") /\
  buildSelectClause ["Id"; "Name"; "Id"] "Account"
  = Return (["Id"; "Name"; "Id"], "SELECT Id, Name, Id").
Proof. repeat split; vm_compute; reflexivity. Qed.

(** C4 (amended): for every input field list and every supported object,
    the field list of the SELECT clause contains "Id".  When the input list
    is empty or does not name "Id", "Id" is first and occurs once.  When the
    input list names "Id", the SELECT list is the input list without its
    invalid fields, in the input order: "Id" stays where the input has it
    and occurs as often as in the input. *)
Theorem select_fields_Id (fields : list string) (object : string) :
  Spec.inCatalog object ->
  exists info kept validFields,
    get schemaObjects object = Own info /\
    selectFields fields object = Return (kept, validFields) /\
    buildSelectClause fields object
    = Return (kept, "SELECT " ++ join ", " validFields) /\
    In "Id" validFields /\
    (arrIncludes fields "Id" = false ->
     exists rest, validFields = "Id" :: rest /\ ~ In "Id" rest) /\
    (arrIncludes fields "Id" = true ->
     validFields = filter (knownField info) fields /\
     count_occ string_dec validFields "Id" = count_occ string_dec fields "Id").
Proof.
  intros Hcat.
  destruct (catalog_own _ Hcat) as [info Hown].
  destruct (selectFields_own _ _ fields Hown) as [defaults [Hdef Hsel]].
  destruct (catalog_defaultFields _ _ Hown)
    as [drest [Hdef' [Hnoid [Hvalid _]]]].
  assert (Edef : defaults = "Id" :: drest) by congruence.
  exists info. do 2 eexists.
  split; [exact Hown |]. split; [exact Hsel |].
  split; [unfold buildSelectClause; rewrite Hsel; reflexivity |].
  split; [apply filter_In; split; [apply ensureId_In | apply knownField_Id] |].
  split.
  - intros Hfields. destruct fields as [|f fields].
    + exists drest. rewrite Edef. split; [| now apply arrIncludes_not_In].
      unfold ensureId. replace (arrIncludes ("Id" :: drest) "Id") with true by reflexivity.
      simpl filter. now rewrite knownField_Id, Hvalid.
    + exists (filter (knownField info) (f :: fields)). unfold ensureId.
      rewrite Hfields. split.
      * change (filter (knownField info) ("Id" :: f :: fields))
          with (if knownField info "Id"
                then "Id" :: filter (knownField info) (f :: fields)
                else filter (knownField info) (f :: fields)).
        now rewrite knownField_Id.
      * rewrite filter_In. intros [Hin _].
        apply arrIncludes_not_In in Hfields. contradiction.
  - intros Hfields. destruct fields as [|f fields]; [discriminate |].
    unfold ensureId. rewrite Hfields. split; [reflexivity |].
    apply count_occ_filter, knownField_Id.
Qed.

Lemma select_fields_Id_witness :
  Spec.inCatalog "Lead" /\
  exists kept validFields,
    selectFields ["Company"; "Status"] "Lead" = Return (kept, validFields) /\
    In "Id" validFields.
Proof.
  split; [reflexivity |].
  destruct (select_fields_Id ["Company"; "Status"] "Lead" eq_refl)
    as [info [kept [validFields [_ [Hsel [_ [Hin _]]]]]]].
  exists kept, validFields. split; [exact Hsel | exact Hin].
Defined.

(** C5, as the specification words it, does not hold: a field that has
    "__c" elsewhere than at its end, is not a field of the object and is not
    one of the four standard fields is accepted all the same. *)
Lemma isFieldValid_custom_marker_inside :
  Spec.inCatalog "Account" /\
  isFieldValid "__cTotal" "Account" = Return true /\
  ~ In "__cTotal" SalesforceMapping.Account_fields /\
  ~ (exists prefix, "__cTotal" = prefix ++ "__c") /\
  ~ In "__cTotal" standardFields.
Proof.
  split; [reflexivity |]. split; [reflexivity |].
  split; [apply arrIncludes_not_In; reflexivity |].
  split; [| apply arrIncludes_not_In; reflexivity].
  intros [prefix H].
  repeat (destruct prefix as [|? prefix]; [discriminate H |];
          injection H as _ H).
  destruct prefix; discriminate H.
Qed.

(** C5 (amended): for every supported object and every field name,
    [isFieldValid] returns true if and only if the field is in the
    object's field list, or the field contains "__c" (anywhere in it, not
    only at its end), or the field is one of Id, Name, CreatedDate and
    LastModifiedDate; it returns false otherwise. *)
Theorem isFieldValid_iff (field object : string) :
  Spec.inCatalog object ->
  exists info valid,
    get schemaObjects object = Own info /\
    isFieldValid field object = Return valid /\
    (valid = true <->
     In field (SalesforceMapping.fields info)
     \/ (exists before after, field = before ++ "__c" ++ after)
     \/ In field ["Id"; "Name"; "CreatedDate"; "LastModifiedDate"]).
Proof.
  intros Hcat. destruct (catalog_own _ Hcat) as [info Hown].
  exists info, (knownField info field).
  split; [exact Hown |]. split; [now apply isFieldValid_own |].
  unfold knownField.
  rewrite !orb_true_iff, !arrIncludes_In, includes_iff. tauto.
Qed.

Lemma isFieldValid_iff_witness :
  Spec.inCatalog "Case" /\
  exists valid, isFieldValid "SLA_Breach__c" "Case" = Return valid.
Proof.
  split; [reflexivity |].
  destruct (isFieldValid_iff "SLA_Breach__c" "Case" eq_refl)
    as [info [valid [_ [Hv _]]]].
  exists valid. exact Hv.
Defined.

End SelectFields.

(* ================================================================= *)
(** ** Failure of the assembler *)

Section Failure.
Import Js SOQLBuilder.

Lemma generateSOQL_catalog (ai : OpenAIService.aiResponse) (query : string) :
  OpenAIService.success ai = true ->
  Spec.inCatalog (OpenAIService.object ai) ->
  exists g, generateSOQL ai query = Success g /\
            object g = OpenAIService.object ai /\
            conditions g = OpenAIService.conditions ai.
Proof.
  intros Hsucc Hcat. destruct (catalog_own _ Hcat) as [info Hown].
  destruct (generate_catalog ai query info Hsucc Hown)
    as [kept [vf [w [o [_ [_ [_ Hgen]]]]]]].
  eexists. unfold generateSOQL. rewrite Hgen. repeat split.
Qed.

Lemma generateSOQL_undefined (ai : OpenAIService.aiResponse) (query : string) :
  OpenAIService.success ai = true ->
  get schemaObjects (OpenAIService.object ai) = Undefined ->
  generateSOQL ai query
  = Failure (Error ("Unsupported object: " ++ OpenAIService.object ai)).
Proof.
  intros Hsucc Hund. unfold generateSOQL, generate. now rewrite Hsucc, Hund.
Qed.

Lemma generateSOQL_not_successful (ai : OpenAIService.aiResponse) (query : string) :
  OpenAIService.success ai = false ->
  generateSOQL ai query = Failure (Error "AI response indicates failure").
Proof. intros Hsucc. unfold generateSOQL, generate. now rewrite Hsucc. Qed.

(** A name that the schema does not have is a key of none of the builder's
    tables either. *)
Lemma inherited_defaultFields (object : string) (v : inherited) :
  get schemaObjects object = Inherited v -> getDefaultFields object = NotArr v.
Proof.
  unfold get, getDefaultFields, getOr, get, schemaObjects, SalesforceMapping.objects.
  cbn [assoc].
  repeat match goal with
         | |- context [String.eqb ?k object] =>
             destruct (String.eqb_spec k object) as [<- | _]; [discriminate |]
         end.
  destruct (assoc object Object_prototype); [| discriminate].
  now intros [= ->].
Qed.

Lemma isFieldValid_inherited (object field : string) (v : inherited) :
  get schemaObjects object = Inherited v -> isFieldValid field object = Throw TypeError.
Proof. unfold isFieldValid. now intros ->. Qed.

(** On a name that only [Object.prototype] supplies the check of the
    object passes and the SELECT clause throws. *)
Lemma generateSOQL_inherited (ai : OpenAIService.aiResponse) (query : string)
      (v : inherited) :
  OpenAIService.success ai = true ->
  get schemaObjects (OpenAIService.object ai) = Inherited v ->
  generateSOQL ai query = Failure TypeError.
Proof.
  intros Hsucc Hinh. unfold generateSOQL, generate. rewrite Hsucc, Hinh.
  cbv beta iota. simpl negb. cbv iota.
  unfold buildSelectClause, selectFields.
  destruct (OpenAIService.fields ai) as [|f fields] eqn:Hf.
  - simpl Nat.eqb. cbv iota. now rewrite (inherited_defaultFields _ _ Hinh).
  - simpl Nat.eqb. cbv iota. unfold validate, ensureId.
    destruct (arrIncludes (f :: fields) "Id"); cbn [filterM];
      now rewrite (isFieldValid_inherited _ _ _ Hinh).
Qed.

(** C6: the object name "constructor" has no entry in the schema, and
    [generateSOQL] does not answer it with the failure "Unsupported object:
    constructor": the property read [schema.objects[object]] finds the
    member of [Object.prototype], the check of the object passes, and the
    SELECT clause throws a TypeError, which the [catch] turns into a failure
    with that error's message.  A name that is neither in the schema nor a
    member of [Object.prototype], such as "Product", gets the failure that
    the claim states. *)
Theorem generateSOQL_inherited_object_name :
  SalesforceMapping.isValidObject "constructor" = false /\
  generateSOQL (Spec.intent "constructor" ["Id"; "Name"] []) "show everything"
  = Failure TypeError /\
  generateSOQL (Spec.intent "constructor" [] []) "show everything"
  = Failure TypeError /\
  SalesforceMapping.isValidObject "Product" = false /\
  generateSOQL (Spec.intent "Product" ["Id"; "Name"] []) "show everything"
  = Failure (Error "Unsupported object: Product").
Proof. repeat split; vm_compute; reflexivity. Qed.

End Failure.

(* ================================================================= *)
(** ** The WHERE clause *)

Section WhereClause.
Import Js SOQLBuilder.

(** C7: for every Intent and supported object, the WHERE clause that
    [buildWhereClause] returns is the one the specification describes: the
    Intent's conditions, then the conditions scanned from the query, then
    the object's default filters, deduplicated by exact string equality with
    the first occurrence kept in place, blank and white-space-only entries
    dropped, joined with " AND " after "WHERE ", and the empty string when
    nothing is left.  The predicates joined are pairwise different, and they
    are exactly the entries of the concatenation that are not blank. *)
Theorem where_clause_refines_spec (conditions : list string) (query object : string) :
  Spec.inCatalog object ->
  exists defaultFilters,
    getDefaultConditions object = Arr defaultFilters /\
    buildWhereClause conditions query object
    = Return (Spec.whereClause conditions
                (extractConditionsFromQuery query object) defaultFilters) /\
    NoDup (Spec.predicates conditions
             (extractConditionsFromQuery query object) defaultFilters) /\
    (forall p,
        In p (Spec.predicates conditions
                (extractConditionsFromQuery query object) defaultFilters)
        <-> In p (conditions ++ extractConditionsFromQuery query object
                             ++ defaultFilters)%list
            /\ Spec.blank p = false).
Proof.
  intros Hcat. exists ["IsDeleted = false"].
  split; [now apply catalog_defaultConditions |].
  split; [now apply buildWhereClause_catalog |].
  split.
  - unfold Spec.predicates. apply NoDup_filter, dedup_NoDup.
  - intros p. unfold Spec.predicates.
    rewrite filter_In, dedup_In, negb_true_iff. tauto.
Qed.

Lemma where_clause_refines_spec_witness :
  Spec.inCatalog "Case" /\
  buildWhereClause ["Priority = 'High'"; " "; "Priority = 'High'"]
                   "open cases this quarter" "Case"
  = Return "WHERE Priority = 'High' AND CreatedDate = THIS_QUARTER AND Status != 'Closed' AND IsDeleted = false".
Proof.
  split; [reflexivity |].
  destruct (where_clause_refines_spec
              ["Priority = 'High'"; " "; "Priority = 'High'"]
              "open cases this quarter" "Case" eq_refl)
    as [defaultFilters [Hd [Hw _]]].
  rewrite Hw. injection Hd as <-. reflexivity.
Defined.

End WhereClause.

(* ================================================================= *)
(** ** The fields reported with the query *)

Section ReportedFields.
Import Js SOQLBuilder.

(** C10, as the specification words it, does not hold: for an Intent on
    Account that asks for the unknown field "Bogus" the SELECT clause is
    printed from ["Id"], and the fields reported with the query are
    ["Id"; "Bogus"]; for an Intent with no field the SELECT clause is
    printed from the five default fields, and no field is reported. *)
Lemma reported_fields_not_validated :
  Spec.inCatalog "Account" /\
  selectFields ["Bogus"] "Account" = Return (["Id"; "Bogus"], ["Id"]) /\
  generateSOQL (Spec.intent "Account" ["Bogus"] []) "all accounts"
  = Success {| soql := "SELECT Id FROM Account WHERE IsDeleted = false ORDER BY Name LIMIT 1000";
               fields := ["Id"; "Bogus"];
               object := "Account";
               conditions := [] |} /\
  generateSOQL (Spec.intent "Account" [] []) "all accounts"
  = Success {| soql := "SELECT Id, Name, Industry, Type, CreatedDate FROM Account WHERE IsDeleted = false ORDER BY Name LIMIT 1000";
               fields := [];
               object := "Account";
               conditions := [] |}.
Proof. repeat split; vm_compute; reflexivity. Qed.

(** C10 (amended): for every Intent whose objectName is in the Schema
    Catalog, the fields component of the result is the Intent's own field
    list as the assembler leaves it: unchanged when it is empty or names
    "Id", and with "Id" put in front otherwise.  It is not filtered through
    [isFieldValid] and the default fields are not substituted in it; for a
    non-empty input the list printed in the SELECT clause is its sublist of
    valid fields. *)
Theorem reported_fields_are_the_intent_fields
        (ai : OpenAIService.aiResponse) (query : string) :
  OpenAIService.success ai = true ->
  Spec.inCatalog (OpenAIService.object ai) ->
  exists info g validFields,
    get schemaObjects (OpenAIService.object ai) = Own info /\
    generateSOQL ai query = Success g /\
    selectFields (OpenAIService.fields ai) (OpenAIService.object ai)
    = Return (fields g, validFields) /\
    fields g = match OpenAIService.fields ai with
               | [] => []
               | _ => ensureId (OpenAIService.fields ai)
               end /\
    (forall f, In f (OpenAIService.fields ai) -> In f (fields g)) /\
    (OpenAIService.fields ai <> [] ->
     validFields = filter (knownField info) (fields g)).
Proof.
  intros Hsucc Hcat. destruct (catalog_own _ Hcat) as [info Hown].
  destruct (generate_catalog ai query info Hsucc Hown)
    as [kept [vf [w [o [Hsel [_ [_ Hgen]]]]]]].
  destruct (selectFields_own _ _ (OpenAIService.fields ai) Hown)
    as [defaults [_ Hsel']].
  assert (Ekept : kept = match OpenAIService.fields ai with
                         | [] => []
                         | _ => ensureId (OpenAIService.fields ai)
                         end) by congruence.
  assert (Evf : vf = filter (knownField info)
                       (ensureId match OpenAIService.fields ai with
                                 | [] => defaults
                                 | _ :: _ => OpenAIService.fields ai
                                 end)) by congruence.
  exists info. eexists _, vf.
  split; [exact Hown |].
  split; [unfold generateSOQL; rewrite Hgen; reflexivity |].
  cbn [fields]. split; [exact Hsel |]. split; [exact Ekept |].
  split.
  - rewrite Ekept. intros f Hin.
    destruct (OpenAIService.fields ai) as [|x l]; [destruct Hin |].
    unfold ensureId. destruct (arrIncludes (x :: l) "Id"); [exact Hin | now right].
  - intros Hne. rewrite Evf, Ekept.
    destruct (OpenAIService.fields ai); [congruence | reflexivity].
Qed.

Lemma reported_fields_are_the_intent_fields_witness :
  OpenAIService.success (Spec.intent "Task" ["Subject"; "Owner"] []) = true /\
  Spec.inCatalog "Task" /\
  exists g,
    generateSOQL (Spec.intent "Task" ["Subject"; "Owner"] []) "tasks" = Success g /\
    fields g = ["Id"; "Subject"; "Owner"].
Proof.
  split; [reflexivity | split; [reflexivity |]].
  destruct (reported_fields_are_the_intent_fields
              (Spec.intent "Task" ["Subject"; "Owner"] []) "tasks" eq_refl eq_refl)
    as [info [g [validFields [_ [Hg [_ [Hf _]]]]]]].
  exists g. split; [exact Hg | exact Hf].
Defined.

End ReportedFields.

(* ================================================================= *)
(** ** The validator *)

Section Validator.
Import Js SOQLBuilder.

(** *** The pattern [/LIMIT\s+(\d+)/i] *)

Lemma digit_not_space (c : ascii) : isDigit c = true -> isWhiteSpace c = false.
Proof.
  unfold isDigit, isWhiteSpace, between.
  rewrite !andb_true_iff, !Nat.leb_le, orb_false_iff, andb_false_iff,
    !Nat.leb_gt, Nat.eqb_neq.
  lia.
Qed.

Lemma span_blank (ws rest : string) :
  Spec.blank ws = true ->
  match rest with EmptyString => True | String c _ => isWhiteSpace c = false end ->
  span isWhiteSpace (ws ++ rest) = (ws, rest).
Proof.
  intros Hws Hrest. induction ws as [|c ws IH]; simpl.
  - destruct rest as [|c rest]; [reflexivity |]. simpl. now rewrite Hrest.
  - simpl in Hws. apply andb_true_iff in Hws as [Hc Hws].
    now rewrite Hc, (IH Hws).
Qed.

Lemma span_digits (ds rest : string) :
  Spec.allDigits ds = true -> Spec.noDigitAhead rest = true ->
  span isDigit (ds ++ rest) = (ds, rest).
Proof.
  intros Hds Hrest. induction ds as [|c ds IH]; simpl.
  - destruct rest as [|c rest]; [reflexivity |]. simpl in *.
    apply negb_true_iff in Hrest. now rewrite Hrest.
  - simpl in Hds. apply andb_true_iff in Hds as [Hc Hds].
    now rewrite Hc, (IH Hds).
Qed.

Lemma startsWithIgnoreCase_upper (kw pattern rest : string) :
  toUpperCase kw = toUpperCase pattern ->
  startsWithIgnoreCase (kw ++ rest) pattern = true.
Proof.
  revert kw. induction pattern as [|b pattern IH]; intros kw H; [reflexivity |].
  destruct kw as [|a kw]; [discriminate H |].
  injection H as Hab H. simpl. rewrite Hab, Ascii.eqb_refl. now apply IH.
Qed.

Lemma drop_append (a b : string) : drop (String.length a) (a ++ b) = b.
Proof. induction a as [|c a IH]; simpl; [now destruct b | exact IH]. Qed.

(** The pattern matches at the head of a text made of the word LIMIT in
    any letter case, some white space and some digits, and captures all the
    digits. *)
Lemma limitMatchHere_matches (kw ws ds rest : string) :
  toUpperCase kw = "LIMIT" ->
  ws <> "" -> Spec.blank ws = true ->
  ds <> "" -> Spec.allDigits ds = true ->
  Spec.noDigitAhead rest = true ->
  limitMatchHere (kw ++ ws ++ ds ++ rest) = Some ds.
Proof.
  intros Hkw Hws Hblank Hds Hdigits Hrest. unfold limitMatchHere.
  rewrite (startsWithIgnoreCase_upper kw "LIMIT") by exact Hkw.
  assert (Hlen : String.length kw = 5).
  { rewrite <- (mapChars_length upperChar kw).
    change (mapChars upperChar kw) with (toUpperCase kw). now rewrite Hkw. }
  rewrite <- Hlen, drop_append, span_blank.
  - cbn [fst snd]. apply truthy_true in Hws. rewrite Hws.
    rewrite span_digits by assumption.
    cbn [fst]. apply truthy_true in Hds. now rewrite Hds.
  - exact Hblank.
  - destruct ds as [|d ds]; [congruence |]. simpl.
    simpl in Hdigits. apply andb_true_iff in Hdigits as [Hd _].
    now apply digit_not_space.
Qed.

Lemma limitMatch_here (s digits : string) :
  limitMatchHere s = Some digits -> limitMatch s = Some digits.
Proof. intros H. destruct s; cbn [limitMatch]; now rewrite H. Qed.

Lemma limitMatch_skip (c : ascii) (s : string) :
  limitMatchHere (String c s) = None -> limitMatch (String c s) = limitMatch s.
Proof. intros H. cbn [limitMatch]. now rewrite H. Qed.

(** *** Forbidden keywords *)




(** *** The LIMIT rules *)

(** The pattern of the embedding finds what [LimitPattern] describes. *)

Lemma spells_upper (kw : string) :
  LimitPattern.spells kw "LIMIT" = true -> toUpperCase kw = "LIMIT".
Proof.
  destruct kw as [|c1 [|c2 [|c3 [|c4 [|c5 [|c6 kw]]]]]]; simpl;
    rewrite ?andb_false_r; try discriminate.
  rewrite !andb_true_iff, !orb_true_iff, !Ascii.eqb_eq.
  intros [[-> | ->] [[-> | ->] [[-> | ->] [[-> | ->] [[-> | ->] _]]]]];
    reflexivity.
Qed.

Lemma letter_ignoring_case (a b : ascii) :
  In b ["L"; "I"; "M"; "T"]%char ->
  Ascii.eqb (upperChar a) (upperChar b)
  = (Ascii.eqb a b || Ascii.eqb a (lowerChar b)).
Proof.
  intros [<- | [<- | [<- | [<- | []]]]];
    destruct a as [b0 b1 b2 b3 b4 b5 b6 b7];
    destruct b0, b1, b2, b3, b4, b5, b6, b7; reflexivity.
Qed.

Lemma afterWord_LIMIT (s : string) :
  startsWithIgnoreCase s "LIMIT" = true ->
  LimitPattern.afterWord s "LIMIT" = Some (drop 5 s).
Proof.
  destruct s as [|c1 [|c2 [|c3 [|c4 [|c5 s]]]]]; simpl;
    rewrite ?andb_false_r; try discriminate.
  rewrite !letter_ignoring_case by (simpl; tauto).
  change (lowerChar "L") with "l"%char. change (lowerChar "I") with "i"%char.
  change (lowerChar "M") with "m"%char. change (lowerChar "T") with "t"%char.
  intros H. apply andb_true_iff in H as [-> H].
  apply andb_true_iff in H as [-> H]. apply andb_true_iff in H as [-> H].
  apply andb_true_iff in H as [-> H]. apply andb_true_iff in H as [-> _].
  reflexivity.
Qed.

Lemma digit_not_maybeSpace (c : ascii) :
  isDigit c = true -> LimitPattern.maybeSpace c = false.
Proof.
  intros Hd. unfold LimitPattern.maybeSpace.
  rewrite (digit_not_space c Hd). cbn [orb].
  unfold isDigit, between in Hd.
  apply andb_true_iff in Hd as [_ Hd]. apply Nat.leb_le in Hd.
  apply Nat.leb_gt. lia.
Qed.

Lemma spaceThenDigit_span (r : string) (seen : bool) :
  seen = true \/ fst (span isWhiteSpace r) <> "" ->
  fst (span isDigit (snd (span isWhiteSpace r))) <> "" ->
  LimitPattern.spaceThenDigit seen r = true.
Proof.
  revert seen. induction r as [|c r IH]; intros seen Hseen Hdigits.
  - now contradiction Hdigits.
  - cbn [span LimitPattern.spaceThenDigit] in *.
    destruct (isWhiteSpace c) eqn:Hc.
    + unfold LimitPattern.maybeSpace. rewrite Hc. cbn [orb].
      destruct (span isWhiteSpace r) as [a b] eqn:Hspan.
      cbn [fst snd] in *. apply IH; [now left | exact Hdigits].
    + cbn [fst snd span] in *.
      destruct (isDigit c) eqn:Hd.
      * rewrite (digit_not_maybeSpace c Hd).
        destruct Hseen as [-> | Hseen]; [reflexivity | now contradiction Hseen].
      * now contradiction Hdigits.
Qed.

Lemma mayMatchHere_limitMatchHere (s : string) :
  LimitPattern.mayMatchHere s = false -> limitMatchHere s = None.
Proof.
  intros Hno. unfold limitMatchHere.
  destruct (startsWithIgnoreCase s "LIMIT") eqn:Hword; [| reflexivity].
  unfold LimitPattern.mayMatchHere in Hno.
  rewrite (afterWord_LIMIT s Hword) in Hno.
  destruct (truthy (fst (span isWhiteSpace (drop 5 s)))) eqn:Hws; [| reflexivity].
  destruct (truthy (fst (span isDigit (snd (span isWhiteSpace (drop 5 s))))))
    eqn:Hds; [| reflexivity].
  apply truthy_true in Hws, Hds.
  rewrite spaceThenDigit_span in Hno; [discriminate | now right | exact Hds].
Qed.

Lemma limitMatch_before (before rest : string) :
  LimitPattern.noMatchBefore (String.length before) (before ++ rest) = true ->
  limitMatch (before ++ rest) = limitMatch rest.
Proof.
  induction before as [|c before IH]; [reflexivity |].
  cbn [String.length LimitPattern.noMatchBefore append].
  intros H. apply andb_true_iff in H as [Hhere Hnext].
  apply negb_true_iff in Hhere.
  rewrite limitMatch_skip by now apply mayMatchHere_limitMatchHere.
  now apply IH.
Qed.

Lemma limitMatch_noMatch (s : string) :
  LimitPattern.noMatch s = true -> limitMatch s = None.
Proof.
  unfold LimitPattern.noMatch. induction s as [|c s IH]; [reflexivity |].
  cbn [String.length LimitPattern.noMatchBefore].
  intros H. apply andb_true_iff in H as [Hhere Hnext].
  apply negb_true_iff in Hhere.
  rewrite limitMatch_skip by now apply mayMatchHere_limitMatchHere.
  now apply IH.
Qed.

(** [parseInt] reads a string of decimal digits as the Standard Library
    reads the decimal numeral. *)

Lemma parseDigits_of_lu (s : string) (d acc : Decimal.uint) :
  NilEmpty.uint_of_string s = Some d ->
  Unsigned.of_lu (Decimal.revapp d acc) = parseDigits (Unsigned.of_lu acc) s.
Proof.
  revert d acc. induction s as [|c s IH]; intros d acc H.
  - injection H as <-. reflexivity.
  - cbn [NilEmpty.uint_of_string] in H.
    destruct (NilEmpty.uint_of_string s) as [d' |] eqn:Hs; [| discriminate H].
    apply uint_of_char_spec in H.
    cbn [parseDigits].
    repeat (destruct H as [[-> ->] | H];
            [cbn [Decimal.revapp]; rewrite (IH _ _ eq_refl); f_equal;
             cbn [Unsigned.of_lu]; vm_compute digitValue; lia |]).
    destruct H as [-> ->].
    cbn [Decimal.revapp]. rewrite (IH _ _ eq_refl). f_equal.
    cbn [Unsigned.of_lu]. vm_compute digitValue. lia.
Qed.

Lemma parseInt_number (digits : string) (n : N) :
  LimitPattern.number digits = Some n -> parseInt digits = n.
Proof.
  unfold LimitPattern.number, NilZero.uint_of_string.
  destruct digits as [|c digits]; [discriminate |].
  destruct (NilEmpty.uint_of_string (String c digits)) as [d |] eqn:Hd;
    [| discriminate].
  intros [= <-]. unfold parseInt.
  change 0%N with (Unsigned.of_lu Decimal.Nil).
  rewrite <- (parseDigits_of_lu _ d Decimal.Nil Hd).
  change (Decimal.revapp d Decimal.Nil) with (Decimal.rev d).
  unfold N.of_uint. now rewrite Unsigned.of_uint_alt.
Qed.

Lemma number_digits (digits : string) (n : N) :
  LimitPattern.number digits = Some n ->
  digits <> "" /\ Spec.allDigits digits = true.
Proof.
  unfold LimitPattern.number, NilZero.uint_of_string.
  destruct digits as [|c digits]; [discriminate |].
  destruct (NilEmpty.uint_of_string (String c digits)) as [d |] eqn:Hd;
    [| discriminate].
  intros _. split; [discriminate |].
  revert d Hd. generalize (String c digits). clear.
  intros s. induction s as [|c s IH]; intros d H; [reflexivity |].
  cbn [NilEmpty.uint_of_string] in H.
  destruct (NilEmpty.uint_of_string s) as [d' |] eqn:Hs; [| discriminate H].
  apply uint_of_char_spec in H.
  cbn [Spec.allDigits]. rewrite (IH d' eq_refl), andb_true_r.
  repeat (destruct H as [[-> _] | H]; [reflexivity |]).
  destruct H as [-> _]. reflexivity.
Qed.

Lemma limitMatch_firstMatch (soql before kw ws digits after : string) (n : N) :
  LimitPattern.firstMatch soql before kw ws digits after n ->
  limitMatch soql = Some digits /\ parseInt digits = n.
Proof.
  intros [-> [Hbefore [Hkw [Hws [Hblank [Hn Hafter]]]]]].
  destruct (number_digits _ _ Hn) as [Hne Hdigits].
  split; [| now apply parseInt_number].
  rewrite (limitMatch_before _ _ Hbefore).
  apply limitMatch_here, limitMatchHere_matches; try assumption.
  now apply spells_upper.
Qed.

Lemma earlier_checks (soql : string) :
  LimitPattern.passesEarlierChecks soql <->
  truthy soql = true /\
  includes (toUpperCase soql) "SELECT " = true /\
  includes (toUpperCase soql) " FROM " = true /\
  firstForbidden (toUpperCase soql) forbiddenKeywords = None.
Proof.
  unfold LimitPattern.passesEarlierChecks.
  rewrite firstForbidden_none. change forbiddenKeywords
    with ["INSERT"; "UPDATE"; "DELETE"; "DROP"; "CREATE"; "ALTER"].
  split; intros [H1 H]; (split; [| exact H]).
  - now apply truthy_true.
  - now apply truthy_true.
Qed.

(** C9, as the specification words it, does not hold: a text without
    " LIMIT " and a text with LIMIT 5000 are rejected for another reason
    when an earlier check fails, be it the forbidden keyword that
    "IsDeleted = false" brings in or the missing SELECT clause. *)
Lemma limit_reported_under_another_reason :
  includes (toUpperCase "SELECT Id FROM Account WHERE IsDeleted = false") " LIMIT "
  = false /\
  validateSOQL "SELECT Id FROM Account WHERE IsDeleted = false"
  = invalid "Forbidden keyword detected: DELETE" /\
  validateSOQL "SELECT Id FROM Account WHERE IsDeleted = false LIMIT 5000"
  = invalid "Forbidden keyword detected: DELETE" /\
  validateSOQL "FROM Account LIMIT 5000" = invalid "Missing SELECT clause".
Proof. repeat split; vm_compute; reflexivity. Qed.

(** C9 (amended): [validateSOQL] enforces the LIMIT rules after its four
    earlier checks.  A text is rejected as missing the LIMIT clause exactly
    when it passes the earlier checks and has no " LIMIT " in any letter
    case, and with the limit-exceeded reason only when it passes them and
    has " LIMIT ".  On a text that passes them and has " LIMIT ", the
    number that counts is that of the leftmost place where LIMIT in some
    letter case, white space and decimal digits follow each other: above
    2000 the text is rejected with the limit-exceeded reason, up to 2000 it
    is accepted, and it is accepted too when there is no such place.  A
    text that fails an earlier check is rejected with the reason of that
    check, whatever its LIMIT.  Whatever the text, when it is accepted it
    has " LIMIT " and that number is at most 2000.  So a text with LIMIT
    5000 that is valid otherwise is rejected with the limit-exceeded reason
    and the same text with LIMIT 1000 is accepted; 2000 still passes and
    2001 does not. *)
Theorem limit_rules (soql : string) :
  (validateSOQL soql = invalid "Missing LIMIT clause for performance" <->
   LimitPattern.passesEarlierChecks soql /\
   includes (toUpperCase soql) " LIMIT " = false) /\
  (validateSOQL soql = invalid "LIMIT value cannot exceed 2000" ->
   LimitPattern.passesEarlierChecks soql /\
   includes (toUpperCase soql) " LIMIT " = true) /\
  (~ LimitPattern.passesEarlierChecks soql ->
   exists reason,
     validateSOQL soql = invalid reason /\
     (In reason [ "SOQL query is required and must be a string";
                  "Missing SELECT clause"; "Missing FROM clause" ] \/
      exists keyword,
        In keyword ["INSERT"; "UPDATE"; "DELETE"; "DROP"; "CREATE"; "ALTER"] /\
        reason = "Forbidden keyword detected: " ++ keyword)) /\
  (LimitPattern.passesEarlierChecks soql ->
   includes (toUpperCase soql) " LIMIT " = true ->
   (forall before kw ws digits after n,
       LimitPattern.firstMatch soql before kw ws digits after n ->
       ((2000 < n)%N ->
        validateSOQL soql = invalid "LIMIT value cannot exceed 2000") /\
       ((n <= 2000)%N -> validateSOQL soql = valid)) /\
   (LimitPattern.noMatch soql = true -> validateSOQL soql = valid)) /\
  (isValid (validateSOQL soql) = true ->
   includes (toUpperCase soql) " LIMIT " = true /\
   forall before kw ws digits after n,
     LimitPattern.firstMatch soql before kw ws digits after n -> (n <= 2000)%N) /\
  validateSOQL "SELECT Id FROM Account LIMIT 5000"
  = invalid "LIMIT value cannot exceed 2000" /\
  validateSOQL "SELECT Id FROM Account LIMIT 1000" = valid /\
  validateSOQL "SELECT Id FROM Account LIMIT 2000" = valid /\
  validateSOQL "SELECT Id FROM Account LIMIT 2001"
  = invalid "LIMIT value cannot exceed 2000".
Proof.
  split; [| split; [| split; [| split; [| split;
    [| repeat split; vm_compute; reflexivity]]]]].
  - rewrite earlier_checks. unfold validateSOQL.
    destruct (truthy soql); cbn [negb];
      [| split; [discriminate | intros [[H _] _]; discriminate H]].
    destruct (includes (toUpperCase soql) "SELECT "); cbn [negb];
      [| split; [discriminate | intros [[_ [H _]] _]; discriminate H]].
    destruct (includes (toUpperCase soql) " FROM "); cbn [negb];
      [| split; [discriminate | intros [[_ [_ [H _]]] _]; discriminate H]].
    destruct (firstForbidden (toUpperCase soql) forbiddenKeywords) as [k |];
      [split; [| intros [[_ [_ [_ H]]] _]; discriminate H] |].
    { unfold invalid. intros H. simpl in H. discriminate H. }
    destruct (includes (toUpperCase soql) " LIMIT "); cbn [negb].
    + split; [| intros [_ H]; discriminate H].
      destruct (limitMatch soql) as [digits |];
        [destruct (N.ltb 2000 (parseInt digits)) |]; discriminate.
    + split; [intros _ | reflexivity]. repeat split.
  - rewrite earlier_checks. unfold validateSOQL.
    destruct (truthy soql); cbn [negb]; [| discriminate].
    destruct (includes (toUpperCase soql) "SELECT "); cbn [negb]; [| discriminate].
    destruct (includes (toUpperCase soql) " FROM "); cbn [negb]; [| discriminate].
    destruct (firstForbidden (toUpperCase soql) forbiddenKeywords) as [k |];
      [unfold invalid; intros H; simpl in H; discriminate H |].
    destruct (includes (toUpperCase soql) " LIMIT "); cbn [negb]; [| discriminate].
    intros _. repeat split.
  - rewrite earlier_checks. unfold validateSOQL. intros Hnot.
    destruct (truthy soql); cbn [negb];
      [| eexists; split; [reflexivity | left; simpl; tauto]].
    destruct (includes (toUpperCase soql) "SELECT "); cbn [negb];
      [| eexists; split; [reflexivity | left; simpl; tauto]].
    destruct (includes (toUpperCase soql) " FROM "); cbn [negb];
      [| eexists; split; [reflexivity | left; simpl; tauto]].
    destruct (firstForbidden (toUpperCase soql) forbiddenKeywords) as [k |] eqn:Hk;
      [| now contradiction Hnot].
    eexists. split; [reflexivity |]. right. exists k. split; [| reflexivity].
    clear Hnot. revert Hk. generalize (toUpperCase soql). intros upper.
    change forbiddenKeywords
      with ["INSERT"; "UPDATE"; "DELETE"; "DROP"; "CREATE"; "ALTER"].
    generalize ["INSERT"; "UPDATE"; "DELETE"; "DROP"; "CREATE"; "ALTER"].
    intros keywords. induction keywords as [|k' keywords IH]; [discriminate |].
    cbn [firstForbidden]. destruct (includes upper k').
    + intros [= ->]. now left.
    + intros H. right. now apply IH.
  - intros Hpass Hlimit. apply earlier_checks in Hpass.
    destruct Hpass as [Ht [Hs [Hf Hk]]].
    unfold validateSOQL. rewrite Ht, Hs, Hf, Hk, Hlimit. cbn [negb].
    split.
    + intros before kw ws digits after n Hmatch.
      destruct (limitMatch_firstMatch _ _ _ _ _ _ _ Hmatch) as [-> <-].
      split; intros Hn.
      * apply N.ltb_lt in Hn. now rewrite Hn.
      * apply N.ltb_ge in Hn. now rewrite Hn.
    + intros Hno. now rewrite (limitMatch_noMatch _ Hno).
  - unfold validateSOQL.
    destruct (truthy soql); [| discriminate].
    destruct (includes (toUpperCase soql) "SELECT "); [| discriminate].
    destruct (includes (toUpperCase soql) " FROM "); [| discriminate].
    destruct (firstForbidden (toUpperCase soql) forbiddenKeywords); [discriminate |].
    destruct (includes (toUpperCase soql) " LIMIT "); [| discriminate].
    cbn [negb]. intros Hvalid. split; [reflexivity |].
    intros before kw ws digits after n Hmatch.
    destruct (limitMatch_firstMatch _ _ _ _ _ _ _ Hmatch) as [Hm <-].
    rewrite Hm in Hvalid.
    destruct (N.ltb 2000 (parseInt digits)) eqn:Hlt; [discriminate |].
    now apply N.ltb_ge.
Qed.

Lemma limit_rules_witness :
  LimitPattern.passesEarlierChecks "select Id from Account limit 2500" /\
  includes (toUpperCase "select Id from Account limit 2500") " LIMIT " = true /\
  LimitPattern.firstMatch "select Id from Account limit 2500"
    "select Id from Account " "limit" " " "2500" "" 2500 /\
  validateSOQL "select Id from Account limit 2500"
  = invalid "LIMIT value cannot exceed 2000".
Proof.
  assert (Hpass : LimitPattern.passesEarlierChecks "select Id from Account limit 2500").
  { split; [discriminate |]. split; [reflexivity |]. split; [reflexivity |].
    intros keyword Hin. simpl in Hin.
    destruct Hin as [<- | [<- | [<- | [<- | [<- | [<- | []]]]]]]; reflexivity. }
  assert (Hmatch : LimitPattern.firstMatch "select Id from Account limit 2500"
                     "select Id from Account " "limit" " " "2500" "" 2500).
  { repeat split; try reflexivity. discriminate. }
  split; [exact Hpass |]. split; [reflexivity |]. split; [exact Hmatch |].
  destruct (limit_rules "select Id from Account limit 2500")
    as [_ [_ [_ [Hrules _]]]].
  destruct (Hrules Hpass eq_refl) as [Hfirst _].
  destruct (Hfirst _ _ _ _ _ _ Hmatch) as [Hexceeds _].
  apply Hexceeds. reflexivity.
Defined.

End Validator.

(* ================================================================= *)
(** ** Letter case *)

Section LetterCase.
Import Js SOQLBuilder.

Ltac each_char c :=
  destruct c as [b0 b1 b2 b3 b4 b5 b6 b7];
  destruct b0, b1, b2, b3, b4, b5, b6, b7; reflexivity.

Lemma upperChar_upperChar (c : ascii) : upperChar (upperChar c) = upperChar c.
Proof. each_char c. Qed.

Lemma upperChar_lowerChar (c : ascii) : upperChar (lowerChar c) = upperChar c.
Proof. each_char c. Qed.

Lemma lowerChar_upperChar (c : ascii) : lowerChar (upperChar c) = lowerChar c.
Proof. each_char c. Qed.

Lemma lowerChar_lowerChar (c : ascii) : lowerChar (lowerChar c) = lowerChar c.
Proof. each_char c. Qed.

Lemma isWhiteSpace_upperChar (c : ascii) : isWhiteSpace (upperChar c) = isWhiteSpace c.
Proof. each_char c. Qed.

Lemma isWhiteSpace_lowerChar (c : ascii) : isWhiteSpace (lowerChar c) = isWhiteSpace c.
Proof. each_char c. Qed.

Lemma isDigit_upperChar (c : ascii) : isDigit (upperChar c) = isDigit c.
Proof. each_char c. Qed.

Lemma isDigit_lowerChar (c : ascii) : isDigit (lowerChar c) = isDigit c.
Proof. each_char c. Qed.

Lemma digit_upperChar (c : ascii) : isDigit c = true -> upperChar c = c.
Proof.
  destruct c as [b0 b1 b2 b3 b4 b5 b6 b7];
    destruct b0, b1, b2, b3, b4, b5, b6, b7; intros H;
    first [reflexivity | discriminate H].
Qed.

Lemma digit_lowerChar (c : ascii) : isDigit c = true -> lowerChar c = c.
Proof.
  destruct c as [b0 b1 b2 b3 b4 b5 b6 b7];
    destruct b0, b1, b2, b3, b4, b5, b6, b7; intros H;
    first [reflexivity | discriminate H].
Qed.

Lemma mapChars_mapChars (f g h : ascii -> ascii) (s : string) :
  (forall c, f (g c) = h c) -> mapChars f (mapChars g s) = mapChars h s.
Proof.
  intros H. induction s as [|c s IH]; simpl; [reflexivity | now rewrite H, IH].
Qed.

Lemma toLowerCase_toUpperCase (s : string) :
  toLowerCase (toUpperCase s) = toLowerCase s.
Proof. apply mapChars_mapChars, lowerChar_upperChar. Qed.

Lemma toLowerCase_toLowerCase (s : string) :
  toLowerCase (toLowerCase s) = toLowerCase s.
Proof. apply mapChars_mapChars, lowerChar_lowerChar. Qed.

Lemma toUpperCase_toUpperCase (s : string) :
  toUpperCase (toUpperCase s) = toUpperCase s.
Proof. apply mapChars_mapChars, upperChar_upperChar. Qed.

Lemma toUpperCase_toLowerCase (s : string) :
  toUpperCase (toLowerCase s) = toUpperCase s.
Proof. apply mapChars_mapChars, upperChar_lowerChar. Qed.

End LetterCase.

(** A change of letter case [f] that the pattern of the LIMIT check does
    not see: it keeps the upper-casing of every character, white space and
    digits. *)
Section CaseBlind.
Import Js SOQLBuilder.

Variable f : ascii -> ascii.
Hypothesis f_upper : forall c, upperChar (f c) = upperChar c.
Hypothesis f_space : forall c, isWhiteSpace (f c) = isWhiteSpace c.
Hypothesis f_digit : forall c, isDigit (f c) = isDigit c.
Hypothesis f_fixes_digits : forall c, isDigit c = true -> f c = c.

Lemma truthy_mapChars (s : string) : truthy (mapChars f s) = truthy s.
Proof. now destruct s. Qed.

Lemma startsWithIgnoreCase_mapChars (s p : string) :
  startsWithIgnoreCase (mapChars f s) p = startsWithIgnoreCase s p.
Proof.
  revert s. induction p as [|b p IH]; intros s; [reflexivity |].
  destruct s as [|a s]; simpl; [reflexivity |]. now rewrite f_upper, IH.
Qed.

Lemma drop_mapChars (n : nat) (s : string) :
  drop n (mapChars f s) = mapChars f (drop n s).
Proof.
  revert s. induction n as [|n IH]; intros s; [reflexivity |].
  destruct s as [|c s]; simpl; [reflexivity | apply IH].
Qed.

Lemma span_space_mapChars (s : string) :
  span isWhiteSpace (mapChars f s)
  = (mapChars f (fst (span isWhiteSpace s)), mapChars f (snd (span isWhiteSpace s))).
Proof.
  induction s as [|c s IH]; simpl; [reflexivity |].
  rewrite f_space. destruct (isWhiteSpace c); [| reflexivity].
  rewrite IH. now destruct (span isWhiteSpace s).
Qed.

Lemma span_digit_mapChars (s : string) :
  fst (span isDigit (mapChars f s)) = fst (span isDigit s).
Proof.
  induction s as [|c s IH]; simpl; [reflexivity |].
  rewrite f_digit. destruct (isDigit c) eqn:Hc; [| reflexivity].
  destruct (span isDigit (mapChars f s)), (span isDigit s). simpl in *.
  now rewrite IH, (f_fixes_digits c Hc).
Qed.

Lemma limitMatchHere_mapChars (s : string) :
  limitMatchHere (mapChars f s) = limitMatchHere s.
Proof.
  unfold limitMatchHere.
  rewrite startsWithIgnoreCase_mapChars, drop_mapChars, span_space_mapChars.
  cbn [fst snd]. now rewrite truthy_mapChars, span_digit_mapChars.
Qed.

Lemma limitMatch_mapChars (s : string) :
  limitMatch (mapChars f s) = limitMatch s.
Proof.
  induction s as [|c s IH].
  - reflexivity.
  - change (mapChars f (String c s)) with (String (f c) (mapChars f s)).
    cbn [limitMatch].
    change (String (f c) (mapChars f s)) with (mapChars f (String c s)).
    now rewrite limitMatchHere_mapChars, IH.
Qed.

Lemma validateSOQL_mapChars (s : string) :
  toUpperCase (mapChars f s) = toUpperCase s ->
  validateSOQL (mapChars f s) = validateSOQL s.
Proof.
  intros Hup. unfold validateSOQL.
  now rewrite truthy_mapChars, Hup, limitMatch_mapChars.
Qed.

End CaseBlind.

Section CaseInsensitivity.
Import Js SOQLBuilder.

(** X1: on ASCII text [validateSOQL] does not see letter case: a text,
    its upper-casing and its lower-casing get the same verdict and the same
    reason.  The hypothesis is where the embedding is that of the code:
    outside ASCII the case mappings of JavaScript are not letter by letter
    (the dotless i, U+0131, becomes I) and the property is lost. *)
Theorem validateSOQL_ignores_case (soql : string) :
  isAscii soql = true ->
  validateSOQL (toUpperCase soql) = validateSOQL soql /\
  validateSOQL (toLowerCase soql) = validateSOQL soql.
Proof.
  intros _. split.
  - apply validateSOQL_mapChars.
    + apply upperChar_upperChar.
    + apply isWhiteSpace_upperChar.
    + apply isDigit_upperChar.
    + apply digit_upperChar.
    + apply toUpperCase_toUpperCase.
  - apply validateSOQL_mapChars.
    + apply upperChar_lowerChar.
    + apply isWhiteSpace_lowerChar.
    + apply isDigit_lowerChar.
    + apply digit_lowerChar.
    + apply toUpperCase_toLowerCase.
Qed.

Lemma validateSOQL_ignores_case_witness :
  isAscii "select Id from Account limit 2500" = true /\
  validateSOQL "SELECT ID FROM ACCOUNT LIMIT 2500"
  = validateSOQL "select Id from Account limit 2500".
Proof.
  split; [reflexivity |].
  exact (proj1 (validateSOQL_ignores_case "select Id from Account limit 2500"
                  eq_refl)).
Defined.

(** X2: on an ASCII query the scans do not see letter case: the query, its
    upper-casing and its lower-casing give the same conditions, for every
    object, and the fallback Intent names the same object for the three.
    Outside ASCII this is lost: the upper-casing of U+00DF is SS, which
    makes a query with "ßupport" speak of support. *)
Theorem query_scan_ignores_case (query object : string) :
  isAscii query = true ->
  extractConditionsFromQuery (toUpperCase query) object
  = extractConditionsFromQuery query object /\
  extractConditionsFromQuery (toLowerCase query) object
  = extractConditionsFromQuery query object /\
  OpenAIService.object (OpenAIService.fallbackProcessing (toUpperCase query))
  = OpenAIService.object (OpenAIService.fallbackProcessing query) /\
  OpenAIService.object (OpenAIService.fallbackProcessing (toLowerCase query))
  = OpenAIService.object (OpenAIService.fallbackProcessing query).
Proof.
  intros _.
  unfold extractConditionsFromQuery, OpenAIService.fallbackProcessing.
  cbn [OpenAIService.object].
  rewrite toLowerCase_toUpperCase, toLowerCase_toLowerCase. repeat split.
Qed.

Lemma query_scan_ignores_case_witness :
  isAscii "Open cases created this month" = true /\
  extractConditionsFromQuery "OPEN CASES CREATED THIS MONTH" "Case"
  = extractConditionsFromQuery "Open cases created this month" "Case" /\
  OpenAIService.object (OpenAIService.fallbackProcessing "OPEN CASES CREATED THIS MONTH")
  = OpenAIService.object (OpenAIService.fallbackProcessing "Open cases created this month").
Proof.
  split; [reflexivity |].
  destruct (query_scan_ignores_case "Open cases created this month" "Case" eq_refl)
    as [Hscan [_ [Hobject _]]].
  split; [exact Hscan | exact Hobject].
Defined.

End CaseInsensitivity.

(* ================================================================= *)
(** ** The outcomes of [generateSOQL] *)

Section Outcomes.
Import Js SOQLBuilder.

Lemma isValidObject_own (object : string) :
  SalesforceMapping.isValidObject object = true <->
  exists info, get schemaObjects object = Own info.
Proof.
  split.
  - apply catalog_own.
  - intros [info H]. exact (own_inCatalog _ _ H).
Qed.

Lemma generateSOQL_success_inv (ai : OpenAIService.aiResponse) (query : string)
      (g : generated) :
  generateSOQL ai query = Success g ->
  OpenAIService.success ai = true /\
  exists info, get schemaObjects (OpenAIService.object ai) = Own info.
Proof.
  intros H. destruct (OpenAIService.success ai) eqn:Hs.
  - split; [reflexivity |].
    destruct (get schemaObjects (OpenAIService.object ai)) as [info | v |] eqn:Hget.
    + now exists info.
    + rewrite (generateSOQL_inherited ai query v Hs Hget) in H. discriminate.
    + rewrite (generateSOQL_undefined ai query Hs Hget) in H. discriminate.
  - rewrite (generateSOQL_not_successful ai query Hs) in H. discriminate.
Qed.

(** X3: [generateSOQL] succeeds exactly when the response says success
    and its object is an own key of the schema.  Its three failures are
    told apart by their cause: "AI response indicates failure" exactly when
    the response does not say success; "Unsupported object: <object>"
    exactly when it does and the property read on the schema finds nothing;
    a TypeError exactly when it does and the read finds a member of
    Object.prototype. *)
Theorem generateSOQL_outcome (ai : OpenAIService.aiResponse) (query : string) :
  ((exists g, generateSOQL ai query = Success g) <->
   OpenAIService.success ai = true /\
   SalesforceMapping.isValidObject (OpenAIService.object ai) = true) /\
  (generateSOQL ai query = Failure (Error "AI response indicates failure") <->
   OpenAIService.success ai = false) /\
  (generateSOQL ai query
   = Failure (Error ("Unsupported object: " ++ OpenAIService.object ai)) <->
   OpenAIService.success ai = true /\
   get schemaObjects (OpenAIService.object ai) = Undefined) /\
  (generateSOQL ai query = Failure TypeError <->
   OpenAIService.success ai = true /\
   exists v, get schemaObjects (OpenAIService.object ai) = Inherited v).
Proof.
  destruct (OpenAIService.success ai) eqn:Hs.
  - destruct (get schemaObjects (OpenAIService.object ai)) as [info | v |] eqn:Hget.
    + pose proof (own_inCatalog _ _ Hget) as Hcat.
      destruct (generateSOQL_catalog ai query Hs Hcat) as [g [Hg _]].
      rewrite Hg.
      repeat split; intros;
        repeat match goal with
               | Hc : _ /\ _ |- _ => destruct Hc
               | Hc : exists _, _ |- _ => destruct Hc
               end;
        try discriminate; eauto.
    + rewrite (generateSOQL_inherited ai query v Hs Hget).
      assert (Hv : SalesforceMapping.isValidObject (OpenAIService.object ai) <> true).
      { intros Hv. apply isValidObject_own in Hv as [info' Hv]. congruence. }
      repeat split; intros;
        repeat match goal with
               | Hc : _ /\ _ |- _ => destruct Hc
               | Hc : exists _, _ |- _ => destruct Hc
               end;
        try discriminate; try contradiction; eauto.
    + rewrite (generateSOQL_undefined ai query Hs Hget).
      assert (Hv : SalesforceMapping.isValidObject (OpenAIService.object ai) <> true).
      { intros Hv. apply isValidObject_own in Hv as [info' Hv]. congruence. }
      repeat split; intros;
        repeat match goal with
               | Hc : _ /\ _ |- _ => destruct Hc
               | Hc : exists _, _ |- _ => destruct Hc
               end;
        try discriminate; try contradiction; eauto.
  - rewrite (generateSOQL_not_successful ai query Hs).
    repeat split; intros;
      repeat match goal with
             | Hc : _ /\ _ |- _ => destruct Hc
             | Hc : exists _, _ |- _ => destruct Hc
             end;
      try discriminate; eauto.
Qed.

Lemma ensureId_ensureId (l : list string) : ensureId (ensureId l) = ensureId l.
Proof.
  unfold ensureId. destruct (arrIncludes l "Id") eqn:H.
  - now rewrite H.
  - reflexivity.
Qed.

Lemma ensureId_nonempty (l : list string) : ensureId l <> [].
Proof. pose proof (ensureId_In l) as H. intros E. now rewrite E in H. Qed.

(** X4: a second call of [generateSOQL] on the same response object gives
    the same result as the first, although the first may have put "Id" in
    front of the array of fields that the response holds. *)
Theorem generateSOQL_again (ai : OpenAIService.aiResponse) (query : string)
        (g : generated) :
  generateSOQL ai query = Success g ->
  generateSOQL (Calls.afterCall ai (fields g)) query = Success g.
Proof.
  intros Hg.
  destruct (generateSOQL_success_inv _ _ _ Hg) as [Hs [info Hown]].
  destruct (generate_catalog ai query info Hs Hown)
    as [kept [vf [w [o [Hsel [Hw [Ho Hgen]]]]]]].
  assert (Eg : g = {| soql := ("SELECT " ++ join ", " vf)
                              ++ (" " ++ buildFromClause (OpenAIService.object ai)
                                  ++ " " ++ w ++ " " ++ o)
                              ++ " " ++ "LIMIT 1000";
                     fields := kept;
                     object := OpenAIService.object ai;
                     conditions := OpenAIService.conditions ai |}).
  { unfold generateSOQL in Hg. rewrite Hgen in Hg. congruence. }
  subst g. cbn [fields].
  destruct (generate_catalog (Calls.afterCall ai kept) query info Hs Hown)
    as [kept' [vf' [w' [o' [Hsel' [Hw' [Ho' Hgen']]]]]]].
  cbn [Calls.afterCall OpenAIService.fields OpenAIService.object
       OpenAIService.conditions] in Hsel', Hw', Ho', Hgen'.
  assert (Ew : w' = w) by congruence.
  assert (Eo : o' = o) by congruence.
  destruct (selectFields_own _ _ (OpenAIService.fields ai) Hown)
    as [defaults [Hdef Hs1]].
  destruct (selectFields_own _ _ kept Hown) as [defaults' [Hdef' Hs2]].
  assert (Ed : defaults' = defaults) by congruence.
  assert (Esel : selectFields kept (OpenAIService.object ai) = Return (kept, vf)).
  { rewrite Hs2, Ed. rewrite Hs1 in Hsel. injection Hsel as Hk Hv.
    destruct (OpenAIService.fields ai) as [|x l] eqn:Hf.
    - subst kept. now rewrite <- Hv.
    - subst kept. rewrite <- Hv.
      destruct (ensureId (x :: l)) as [|y l'] eqn:He;
        [now apply ensureId_nonempty in He |].
      rewrite <- He, ensureId_ensureId. reflexivity. }
  assert (Ek : kept' = kept /\ vf' = vf) by (split; congruence).
  destruct Ek as [-> ->]. subst w' o'.
  unfold generateSOQL. now rewrite Hgen'.
Qed.

Lemma generateSOQL_again_witness :
  generateSOQL (Spec.intent "Lead" ["Company"] []) "leads this month"
  = Success {| soql := "SELECT Id, Company FROM Lead WHERE CreatedDate = THIS_MONTH AND IsDeleted = false ORDER BY Name LIMIT 1000";
               fields := ["Id"; "Company"];
               object := "Lead";
               conditions := [] |} /\
  generateSOQL (Calls.afterCall (Spec.intent "Lead" ["Company"] []) ["Id"; "Company"])
               "leads this month"
  = Success {| soql := "SELECT Id, Company FROM Lead WHERE CreatedDate = THIS_MONTH AND IsDeleted = false ORDER BY Name LIMIT 1000";
               fields := ["Id"; "Company"];
               object := "Lead";
               conditions := [] |}.
Proof.
  split; [reflexivity |].
  exact (generateSOQL_again (Spec.intent "Lead" ["Company"] []) "leads this month"
           _ eq_refl).
Defined.

End Outcomes.

(* ================================================================= *)
(** ** What the query contributes to the WHERE clause *)

Section Scanned.
Import Js SOQLBuilder.

Ltac split_if :=
  match goal with
  | |- context [if ?b then _ else _] =>
      lazymatch b with
      | true => fail
      | false => fail
      | _ => destruct b
      end
  end.

Lemma scanned_blank (query object : string) :
  Forall (fun c => Spec.blank c = false) (extractConditionsFromQuery query object).
Proof.
  unfold extractConditionsFromQuery.
  repeat match goal with
         | |- Forall _ (_ ++ _)%list => apply Forall_app; split
         | |- context [if ?b then _ else _] => destruct b
         end;
    repeat constructor.
Qed.

(** X5: the conditions that [extractConditionsFromQuery] reads off a
    query are pairwise different and at most four, none is blank and none
    is the default filter "IsDeleted = false"; at most one of them is a
    date condition on CreatedDate; and for an object other than Account,
    Opportunity and Case nothing but a date condition is ever extracted. *)
Theorem scanned_conditions_shape (query object : string) :
  NoDup (extractConditionsFromQuery query object) /\
  List.length (extractConditionsFromQuery query object) <= 4 /\
  List.length (filter (fun c => startsWith c "CreatedDate = ")
                      (extractConditionsFromQuery query object)) <= 1 /\
  Forall (fun c => Spec.blank c = false) (extractConditionsFromQuery query object) /\
  ~ In "IsDeleted = false" (extractConditionsFromQuery query object) /\
  (object <> "Account" -> object <> "Opportunity" -> object <> "Case" ->
   List.length (extractConditionsFromQuery query object) <= 1 /\
   Forall (fun c => startsWith c "CreatedDate = " = true)
          (extractConditionsFromQuery query object)).
Proof.
  unfold extractConditionsFromQuery. cbv zeta.
  destruct (String.eqb_spec object "Account") as [-> | Ha];
    [| destruct (String.eqb_spec object "Opportunity") as [-> | Ho];
       [| destruct (String.eqb_spec object "Case") as [-> | Hc]]];
    cbn [String.eqb Ascii.eqb Bool.eqb andb];
    repeat (cbv iota; split_if); cbv iota;
    (split; [repeat constructor; simpl; intuition discriminate |]);
    (split; [simpl; lia |]);
    (split; [simpl; lia |]);
    (split; [repeat constructor |]);
    (split; [simpl; intuition discriminate |]);
    intros; try congruence; (split; [simpl; lia | repeat constructor]).
Qed.

(** X6: every condition of the response that is not blank, every
    condition read off the query and the default filter stand in the text
    that [generateSOQL] returns, character for character as they came. *)
Theorem conditions_copied_verbatim (ai : OpenAIService.aiResponse)
        (query : string) (g : generated) :
  generateSOQL ai query = Success g ->
  includes (soql g) "IsDeleted = false" = true /\
  (forall c, In c (OpenAIService.conditions ai) -> Spec.blank c = false ->
             includes (soql g) c = true) /\
  (forall c, In c (extractConditionsFromQuery query (OpenAIService.object ai)) ->
             includes (soql g) c = true).
Proof.
  intros Hg.
  destruct (generateSOQL_success_inv _ _ _ Hg) as [Hs [info Hown]].
  pose proof (own_inCatalog _ _ Hown) as Hcat.
  destruct (generate_catalog ai query info Hs Hown)
    as [kept [vf [w [o [_ [Hw [_ Hgen]]]]]]].
  rewrite (buildWhereClause_catalog _ _ _ Hcat), whereClause_present in Hw.
  assert (Ew : w = "WHERE " ++ join " AND "
                     (Spec.predicates (OpenAIService.conditions ai)
                        (extractConditionsFromQuery query (OpenAIService.object ai))
                        ["IsDeleted = false"])) by congruence.
  unfold generateSOQL in Hg. rewrite Hgen in Hg. injection Hg as <-.
  cbn [soql].
  assert (Hany : forall c,
             In c (Spec.predicates (OpenAIService.conditions ai)
                     (extractConditionsFromQuery query (OpenAIService.object ai))
                     ["IsDeleted = false"]) ->
             includes (("SELECT " ++ join ", " vf)
                       ++ (" " ++ buildFromClause (OpenAIService.object ai)
                           ++ " " ++ w ++ " " ++ o)
                       ++ " " ++ "LIMIT 1000") c = true).
  { intros c Hc. apply includes_append_l, includes_append_r.
    do 3 apply includes_append_l. apply includes_append_r.
    rewrite Ew. apply includes_append_l, join_includes, Hc. }
  split; [apply Hany, predicates_default |].
  split.
  - intros c Hin Hb. apply Hany. unfold Spec.predicates.
    apply filter_In. split; [| now rewrite Hb].
    apply dedup_In, in_or_app. now left.
  - intros c Hin. apply Hany. unfold Spec.predicates.
    apply filter_In. split.
    + apply dedup_In, in_or_app. right. apply in_or_app. now left.
    + pose proof (scanned_blank query (OpenAIService.object ai)) as Hall.
      rewrite Forall_forall in Hall. now rewrite (Hall c Hin).
Qed.

End Scanned.

(* ================================================================= *)
(** ** The endpoint POST /api/parse-query *)

Section Endpoint.
Import Js SOQLBuilder.

Ltac split_if :=
  match goal with
  | |- context [if ?b then _ else _] =>
      lazymatch b with
      | true => fail
      | false => fail
      | _ => destruct b
      end
  end.

(** Whatever [generateSOQL] returns with success, [validateSOQL] turns
    down for a forbidden keyword. *)
Lemma generated_text_rejected (ai : OpenAIService.aiResponse) (query : string)
      (g : generated) :
  generateSOQL ai query = Success g ->
  exists keyword,
    In keyword forbiddenKeywords /\
    validateSOQL (soql g) = invalid ("Forbidden keyword detected: " ++ keyword).
Proof.
  intros Hg.
  destruct (generateSOQL_success_inv _ _ _ Hg) as [Hs [info Hown]].
  pose proof (own_inCatalog _ _ Hown) as Hcat.
  destruct (generate_catalog ai query info Hs Hown)
    as [kept [vf [w [o [_ [Hw [_ Hgen]]]]]]].
  rewrite (buildWhereClause_catalog _ _ _ Hcat), whereClause_present in Hw.
  assert (Ew : w = "WHERE " ++ join " AND "
                     (Spec.predicates (OpenAIService.conditions ai)
                        (extractConditionsFromQuery query (OpenAIService.object ai))
                        ["IsDeleted = false"])) by congruence.
  set (text := ("SELECT " ++ join ", " vf)
               ++ (" " ++ buildFromClause (OpenAIService.object ai)
                   ++ " " ++ w ++ " " ++ o)
               ++ " " ++ "LIMIT 1000") in *.
  assert (Etext : soql g = text).
  { unfold generateSOQL in Hg. rewrite Hgen in Hg. now injection Hg as <-. }
  rewrite Etext.
  assert (Hselect : includes (toUpperCase text) "SELECT " = true).
  { apply (includes_toUpperCase text "SELECT "). unfold text.
    rewrite append_assoc. apply includes_iff. exists "". eexists. reflexivity. }
  assert (Hfrom : includes (toUpperCase text) " FROM " = true).
  { apply (includes_toUpperCase text " FROM "). unfold text, buildFromClause.
    apply includes_append_l, includes_append_r.
    apply includes_iff. exists "". eexists. simpl. reflexivity. }
  assert (Hdelete : includes (toUpperCase text) "DELETE" = true).
  { apply includes_trans with (mid := toUpperCase "IsDeleted = false");
      [| reflexivity].
    apply includes_toUpperCase. unfold text.
    apply includes_append_l, includes_append_r.
    do 3 apply includes_append_l. apply includes_append_r.
    rewrite Ew. apply includes_append_l, join_includes, predicates_default. }
  destruct (firstForbidden_found (toUpperCase text) "DELETE" forbiddenKeywords)
    as [keyword [Hfirst [Hin _]]]; [simpl; tauto | exact Hdelete |].
  exists keyword. split; [exact Hin |].
  assert (Ht : truthy text = true) by (apply truthy_true; discriminate).
  clearbody text. unfold validateSOQL.
  now rewrite Ht, Hselect, Hfrom, Hfirst.
Qed.

Lemma answer_never_succeeds
      (processQuery : string -> OpenAIService.aiResponse) (query : string) :
  exists status error message,
    ParseQueryRoute.answer processQuery query
    = ParseQueryRoute.Rejected status error message /\
    In (status, error)
       [ (500, "AI processing failed"); (500, "SOQL generation failed");
         (400, "Invalid SOQL generated") ].
Proof.
  unfold ParseQueryRoute.answer. cbv zeta.
  destruct (OpenAIService.success (processQuery query)); cbn [negb];
    [| do 3 eexists; split; [reflexivity | simpl; tauto]].
  destruct (generateSOQL (processQuery query) query) as [g | e] eqn:Hg;
    [| do 3 eexists; split; [reflexivity | simpl; tauto]].
  destruct (generated_text_rejected _ _ _ Hg) as [keyword [_ Hv]].
  rewrite Hv. cbn [isValid invalid negb].
  do 3 eexists; split; [reflexivity | simpl; tauto].
Qed.

(** X7: the handler of POST /api/parse-query never answers 200, whatever
    the body of the request and whatever the language-model stage returns:
    a text that [generateSOQL] produces always carries "IsDeleted = false",
    which [validateSOQL] refuses.  Every answer is one of six refusals: 400
    "Invalid input", 400 "Input too long", 500 "AI processing failed", 500
    "SOQL generation failed", 400 "Invalid SOQL generated", and the 500
    "Internal server error" of the handler's own [catch]. *)
Theorem parseQuery_never_succeeds
        (processQuery : string -> OpenAIService.aiResponse)
        (body : ParseQueryRoute.json) :
  exists status error message,
    ParseQueryRoute.parseQuery processQuery body
    = ParseQueryRoute.Rejected status error message /\
    In (status, error)
       [ (400, "Invalid input"); (400, "Input too long");
         (500, "AI processing failed"); (500, "SOQL generation failed");
         (400, "Invalid SOQL generated"); (500, "Internal server error") ].
Proof.
  assert (Hquery : forall v,
    exists status error message,
      match v with
      | ParseQueryRoute.JString query =>
          if negb (truthy query) then
            ParseQueryRoute.Rejected 400 "Invalid input"
              (ParseQueryRoute.Text "Query parameter is required and must be a string")
          else if Nat.ltb 1000 (String.length query) then
            ParseQueryRoute.Rejected 400 "Input too long"
              (ParseQueryRoute.Text "Query exceeds maximum length of 1000 characters")
          else if negb (ParseQueryRoute.printable (ParseQueryRoute.member body "userId")
                        && ParseQueryRoute.printable (ParseQueryRoute.member body "orgId"))
          then ParseQueryRoute.internalError
          else ParseQueryRoute.answer processQuery query
      | _ =>
          ParseQueryRoute.Rejected 400 "Invalid input"
            (ParseQueryRoute.Text "Query parameter is required and must be a string")
      end = ParseQueryRoute.Rejected status error message /\
      In (status, error)
         [ (400, "Invalid input"); (400, "Input too long");
           (500, "AI processing failed"); (500, "SOQL generation failed");
           (400, "Invalid SOQL generated"); (500, "Internal server error") ]).
  { intros v.
    destruct v as [| | b | | query | items | members];
      try (do 3 eexists; split; [reflexivity | simpl; tauto]).
    destruct (truthy query); cbn [negb];
      [| do 3 eexists; split; [reflexivity | simpl; tauto]].
    destruct (Nat.ltb 1000 (String.length query));
      [do 3 eexists; split; [reflexivity | simpl; tauto] |].
    destruct (ParseQueryRoute.printable (ParseQueryRoute.member body "userId")
              && ParseQueryRoute.printable (ParseQueryRoute.member body "orgId"));
      cbn [negb];
      [| do 3 eexists; split; [reflexivity | simpl; tauto]].
    destruct (answer_never_succeeds processQuery query)
      as [status [error [message [-> Hin]]]].
    do 3 eexists. split; [reflexivity |].
    simpl in Hin. simpl. tauto. }
  unfold ParseQueryRoute.parseQuery.
  destruct body as [| | b | | text | items | members];
    try (do 3 eexists; split; [reflexivity | simpl; tauto]);
    apply Hquery.
Qed.

Lemma fallback_shape (query : string) :
  OpenAIService.success (OpenAIService.fallbackProcessing query) = true /\
  In (OpenAIService.object (OpenAIService.fallbackProcessing query))
     ["Account"; "Contact"; "Lead"; "Opportunity"; "Case"] /\
  OpenAIService.fields (OpenAIService.fallbackProcessing query)
  = ["Id"; "Name"; "CreatedDate"] /\
  OpenAIService.conditions (OpenAIService.fallbackProcessing query) = [].
Proof.
  unfold OpenAIService.fallbackProcessing.
  cbn [OpenAIService.success OpenAIService.object OpenAIService.fields
       OpenAIService.conditions].
  repeat split. repeat split_if; simpl; tauto.
Qed.

Lemma fallback_generated (query : string) :
  exists g,
    generateSOQL (OpenAIService.fallbackProcessing query) query = Success g /\
    fields g = ["Id"; "Name"; "CreatedDate"] /\
    object g = OpenAIService.object (OpenAIService.fallbackProcessing query) /\
    startsWith (soql g) ("SELECT Id, Name, CreatedDate FROM " ++ object g ++ " WHERE ")
    = true /\
    validateSOQL (soql g) = invalid "Forbidden keyword detected: DELETE".
Proof.
  destruct (fallback_shape query) as [Hs [Hin [Hf Hc]]].
  remember (OpenAIService.fallbackProcessing query) as ai eqn:Hai. clear Hai.
  assert (Hcat : Spec.inCatalog (OpenAIService.object ai)).
  { simpl in Hin. destruct Hin as [E | [E | [E | [E | [E | []]]]]];
      rewrite <- E; reflexivity. }
  destruct (catalog_own _ Hcat) as [info Hown].
  destruct (generate_catalog ai query info Hs Hown)
    as [kept [vf [w [o [Hsel [Hw [Ho Hgen]]]]]]].
  rewrite Hf in Hsel.
  rewrite Hc, (buildWhereClause_catalog _ _ _ Hcat) in Hw.
  injection Hw as Hw.
  eexists. split; [unfold generateSOQL; rewrite Hgen; reflexivity |].
  cbn [soql fields object]. rewrite <- Hw.
  clear Hgen Hw Hown Hcat Hs Hf Hc.
  simpl in Hin.
  destruct Hin as [E | [E | [E | [E | [E | []]]]]]; rewrite <- E in *;
    clear E;
    vm_compute in Hsel; injection Hsel as <- <-;
    vm_compute in Ho; injection Ho as <-;
    (split; [reflexivity |]); (split; [reflexivity |]);
    unfold extractConditionsFromQuery; cbv zeta;
    cbn [String.eqb Ascii.eqb Bool.eqb andb];
    repeat (cbv iota; split_if);
    (split; vm_compute; reflexivity).
Qed.

(** X8: with no language model behind it (the key is not configured or
    the call fails, so that [processQuery] is [fallbackProcessing]), the
    endpoint answers every request in one of four ways: 500 "Internal
    server error" when the body is [undefined] or [null]; 400 "Invalid
    input" when the query is missing, not a string or empty; 400 "Input too
    long" when it has more than 1000 characters; then again 500 "Internal
    server error" when [userId] or [orgId] cannot be turned into a string;
    and otherwise 400 "Invalid SOQL generated" with the message "Forbidden
    keyword detected: DELETE". *)
Theorem parseQuery_offline (body : ParseQueryRoute.json) :
  ParseQueryRoute.parseQuery OpenAIService.fallbackProcessing body
  = match body with
    | ParseQueryRoute.JUndefined | ParseQueryRoute.JNull =>
        ParseQueryRoute.Rejected 500 "Internal server error"
          (ParseQueryRoute.Text "Failed to process query")
    | _ =>
        match ParseQueryRoute.member body "query" with
        | ParseQueryRoute.JString text =>
            if String.eqb text "" then
              ParseQueryRoute.Rejected 400 "Invalid input"
                (ParseQueryRoute.Text "Query parameter is required and must be a string")
            else if Nat.ltb 1000 (String.length text) then
              ParseQueryRoute.Rejected 400 "Input too long"
                (ParseQueryRoute.Text "Query exceeds maximum length of 1000 characters")
            else if ParseQueryRoute.printable (ParseQueryRoute.member body "userId")
                    && ParseQueryRoute.printable (ParseQueryRoute.member body "orgId")
            then
              ParseQueryRoute.Rejected 400 "Invalid SOQL generated"
                (ParseQueryRoute.Text "Forbidden keyword detected: DELETE")
            else
              ParseQueryRoute.Rejected 500 "Internal server error"
                (ParseQueryRoute.Text "Failed to process query")
        | _ =>
            ParseQueryRoute.Rejected 400 "Invalid input"
              (ParseQueryRoute.Text "Query parameter is required and must be a string")
        end
    end.
Proof.
  assert (Hanswer : forall text,
    ParseQueryRoute.answer OpenAIService.fallbackProcessing text
    = ParseQueryRoute.Rejected 400 "Invalid SOQL generated"
        (ParseQueryRoute.Text "Forbidden keyword detected: DELETE")).
  { intros text. unfold ParseQueryRoute.answer. cbv zeta.
    destruct (fallback_generated text) as [g [Hg [_ [_ [_ Hv]]]]].
    destruct (fallback_shape text) as [Hs _].
    rewrite Hs, Hg, Hv. reflexivity. }
  unfold ParseQueryRoute.parseQuery, ParseQueryRoute.internalError.
  destruct body as [| | b | | s | items | members]; try reflexivity;
    (destruct (ParseQueryRoute.member _ "query") as [| | b' | | text | items' | members'];
     try reflexivity;
     unfold truthy; destruct (String.eqb text ""); cbn [negb]; [reflexivity |];
     destruct (Nat.ltb 1000 (String.length text)); [reflexivity |];
     match goal with
     | |- context [negb (?a && ?b)] => destruct (a && b); cbn [negb]
     end; [apply Hanswer | reflexivity]).
Qed.

(** X9: the fallback Intent always goes through [generateSOQL]: for every
    query it names one of Account, Contact, Lead, Opportunity and Case
    (never Task or Event), the text selects exactly Id, Name and
    CreatedDate from that object, the fields reported are these three, and
    [validateSOQL] refuses the text with "Forbidden keyword detected:
    DELETE". *)
Theorem fallback_pipeline (query : string) :
  exists g,
    generateSOQL (OpenAIService.fallbackProcessing query) query = Success g /\
    In (object g) ["Account"; "Contact"; "Lead"; "Opportunity"; "Case"] /\
    fields g = ["Id"; "Name"; "CreatedDate"] /\
    startsWith (soql g) ("SELECT Id, Name, CreatedDate FROM " ++ object g ++ " WHERE ")
    = true /\
    validateSOQL (soql g) = invalid "Forbidden keyword detected: DELETE".
Proof.
  destruct (fallback_generated query) as [g [Hg [Hf [Ho [Hstart Hv]]]]].
  destruct (fallback_shape query) as [_ [Hin _]].
  exists g. split; [exact Hg |]. split; [rewrite Ho; exact Hin |].
  split; [exact Hf |]. split; [exact Hstart | exact Hv].
Qed.

End Endpoint.

(* ================================================================= *)
(** ** The answer of the model read as plain text *)

Section PlainText.
Import Js SOQLBuilder TextResponse.









End PlainText.

(* ================================================================= *)
(** ** The schema and the business terms *)

Section Mapping.
Import Js SOQLBuilder.

Lemma assoc_In {A : Type} (key : string) (table : list (string * A)) (a : A) :
  assoc key table = Some a -> In (key, a) table.
Proof.
  induction table as [|[k v] table IH]; [discriminate |].
  simpl. destruct (String.eqb_spec k key) as [-> | _].
  - intros [= ->]. now left.
  - intros H. right. now apply IH.
Qed.

Lemma assoc_keys {A : Type} (key : string) (table : list (string * A)) :
  In key (map fst table) <-> hasOwnProperty table key = true.
Proof.
  unfold hasOwnProperty. induction table as [|[k v] table IH]; simpl.
  - split; [intros [] | discriminate].
  - destruct (String.eqb_spec k key) as [-> | Hne].
    + split; [reflexivity | now left].
    + rewrite IH. split; [intros [E | H]; [contradiction | exact H] | now right].
Qed.

Lemma canonical_terms_fixed :
  Forall (fun entry => SalesforceMapping.mapBusinessTerm (snd entry)
                       = SalesforceMapping.Term (snd entry))
         SalesforceMapping.businessTerms.
Proof. repeat constructor. Qed.

Lemma lowercase_prototype_names (key : string) (v : inherited) :
  assoc key Object_prototype = Some v -> toLowerCase key = key ->
  key = "constructor" \/ key = "__proto__".
Proof.
  unfold Object_prototype. cbn [assoc].
  repeat match goal with
         | |- context [String.eqb ?k key] =>
             destruct (String.eqb_spec k key) as [<- | _];
             [intros _ H; first [discriminate H | tauto] |]
         end.
  discriminate.
Qed.

(** X11: [mapBusinessTerm] is idempotent on its string results: the
    canonical word it returns for a term is returned unchanged when it is
    mapped again, and so is a term the table does not have.  For a term of
    the table the result does not depend on the letter case of the term.
    The result is not a string only for the terms that lower-case to
    "constructor" or "__proto__", where the property read on the table
    finds a member of Object.prototype. *)
Theorem mapBusinessTerm_stable (term : string) :
  (forall canonical,
      SalesforceMapping.mapBusinessTerm term = SalesforceMapping.Term canonical ->
      SalesforceMapping.mapBusinessTerm canonical = SalesforceMapping.Term canonical) /\
  (Calls.resolves term = true ->
   SalesforceMapping.mapBusinessTerm (toUpperCase term)
   = SalesforceMapping.mapBusinessTerm term /\
   SalesforceMapping.mapBusinessTerm (toLowerCase term)
   = SalesforceMapping.mapBusinessTerm term) /\
  (Calls.resolves term = false ->
   toLowerCase term <> "constructor" -> toLowerCase term <> "__proto__" ->
   SalesforceMapping.mapBusinessTerm term = SalesforceMapping.Term term) /\
  (forall v,
      SalesforceMapping.mapBusinessTerm term = SalesforceMapping.NotATerm v ->
      toLowerCase term = "constructor" \/ toLowerCase term = "__proto__").
Proof.
  assert (Hinh : forall v,
             get SalesforceMapping.businessTerms (toLowerCase term) = Inherited v ->
             toLowerCase term = "constructor" \/ toLowerCase term = "__proto__").
  { intros v H. unfold get in H.
    destruct (assoc (toLowerCase term) SalesforceMapping.businessTerms);
      [discriminate |].
    destruct (assoc (toLowerCase term) Object_prototype) as [v' |] eqn:Hp;
      [| discriminate].
    apply (lowercase_prototype_names _ v' Hp), toLowerCase_toLowerCase. }
  split; [| split; [| split]].
  - intros canonical. unfold SalesforceMapping.mapBusinessTerm at 1.
    destruct (get SalesforceMapping.businessTerms (toLowerCase term))
      as [c | v |] eqn:Hget.
    + intros [= <-]. unfold get in Hget.
      destruct (assoc (toLowerCase term) SalesforceMapping.businessTerms)
        as [c' |] eqn:Ha.
      * injection Hget as <-. apply assoc_In in Ha.
        pose proof canonical_terms_fixed as Hall.
        rewrite Forall_forall in Hall. exact (Hall _ Ha).
      * destruct (assoc (toLowerCase term) Object_prototype); discriminate.
    + discriminate.
    + intros [= <-]. unfold SalesforceMapping.mapBusinessTerm. now rewrite Hget.
  - intros Hres. unfold SalesforceMapping.mapBusinessTerm. cbv zeta.
    rewrite toLowerCase_toUpperCase, toLowerCase_toLowerCase.
    unfold Calls.resolves, hasOwnProperty in Hres. unfold get.
    destruct (assoc (toLowerCase term) SalesforceMapping.businessTerms);
      [split; reflexivity | discriminate Hres].
  - intros Hres Hc Hp. unfold SalesforceMapping.mapBusinessTerm.
    destruct (get SalesforceMapping.businessTerms (toLowerCase term))
      as [c | v |] eqn:Hget; [| | reflexivity].
    + unfold Calls.resolves, hasOwnProperty in Hres. unfold get in Hget.
      destruct (assoc (toLowerCase term) SalesforceMapping.businessTerms);
        [discriminate Hres |].
      destruct (assoc (toLowerCase term) Object_prototype); discriminate.
    + destruct (Hinh v eq_refl); contradiction.
  - intros v. unfold SalesforceMapping.mapBusinessTerm.
    destruct (get SalesforceMapping.businessTerms (toLowerCase term))
      as [c | v' |] eqn:Hget; try discriminate.
    intros _. exact (Hinh v' eq_refl).
Qed.

(** X12: [getAvailableObjects] lists, each once, exactly the names that
    [isValidObject] accepts.  [isValidField] of the mapping never throws;
    it accepts a field exactly when the object is an own key of the schema
    and the field stands in its list, and every field it accepts
    [isFieldValid] of the builder accepts too. *)
Theorem mapping_validity (fieldName objectName : string) :
  NoDup SalesforceMapping.getAvailableObjects /\
  (In objectName SalesforceMapping.getAvailableObjects <->
   SalesforceMapping.isValidObject objectName = true) /\
  (exists valid,
      SalesforceMapping.isValidField fieldName objectName = Return valid) /\
  (SalesforceMapping.isValidField fieldName objectName = Return true <->
   exists info,
     get SalesforceMapping.objects objectName = Own info /\
     In fieldName (SalesforceMapping.fields info)) /\
  (SalesforceMapping.isValidField fieldName objectName = Return true ->
   isFieldValid fieldName objectName = Return true).
Proof.
  split.
  { repeat constructor; simpl; intuition discriminate. }
  split; [apply assoc_keys |].
  unfold SalesforceMapping.isValidField, SalesforceMapping.getObjectFields,
    SalesforceMapping.isValidObject, hasOwnProperty, isFieldValid, schemaObjects,
    get.
  destruct (assoc objectName SalesforceMapping.objects) as [info |]; cbn [negb].
  - split; [eexists; reflexivity |]. split.
    + split.
      * intros [= H]. exists info. split; [reflexivity | now apply arrIncludes_In].
      * intros [info' [[= <-] Hin]]. apply arrIncludes_In in Hin. now rewrite Hin.
    + intros [= H]. unfold knownField. now rewrite H.
  - split; [eexists; reflexivity |]. split.
    + split; [discriminate |].
      intros [info' [H _]].
      destruct (assoc objectName Object_prototype); discriminate H.
    + discriminate.
Qed.

End Mapping.

(* ================================================================= *)
(** ** The Lightning component *)

Section Component.
Import AiReportBuilder.

Lemma saveToHistory_firstn {Entry : Type} (history : list Entry) (entry : Entry) :
  saveToHistory history entry = firstn MAX_HISTORY_RECORDS (entry :: history).
Proof.
  unfold saveToHistory. cbv zeta.
  destruct (Nat.ltb MAX_HISTORY_RECORDS (List.length (entry :: history))) eqn:H;
    [reflexivity |].
  apply Nat.ltb_ge in H. symmetry. now apply firstn_all2.
Qed.

Lemma firstn_app_firstn {A : Type} (n : nat) (a b : list A) :
  firstn n (a ++ firstn n b) = firstn n (a ++ b).
Proof.
  rewrite !firstn_app, firstn_firstn. do 2 f_equal. lia.
Qed.

Lemma saves_from {Entry : Type} (entries history : list Entry) :
  List.length history <= MAX_HISTORY_RECORDS ->
  fold_left saveToHistory entries history
  = firstn MAX_HISTORY_RECORDS (rev entries ++ history).
Proof.
  revert history. induction entries as [|e entries IH]; intros history Hlen.
  - cbn [fold_left rev app]. symmetry. now apply firstn_all2.
  - cbn [fold_left]. rewrite IH.
    + rewrite saveToHistory_firstn, firstn_app_firstn.
      cbn [rev]. now rewrite <- app_assoc.
    + rewrite saveToHistory_firstn. apply firstn_le_length.
Qed.

(** X13: the query history holds the most recent entries, newest first,
    and never more than 50: after saving [entries] one after the other,
    starting from an empty history, the history is the first 50 of the
    entries in reverse order; a save puts the new entry at the head and
    leaves the entries it keeps in their order. *)
Theorem history_keeps_latest {Entry : Type} (entries : list Entry) :
  fold_left saveToHistory entries (@nil Entry) = firstn 50 (rev entries) /\
  List.length (fold_left saveToHistory entries (@nil Entry))
  = Nat.min 50 (List.length entries) /\
  (forall (history : list Entry) (entry : Entry),
      saveToHistory history entry = entry :: firstn 49 history).
Proof.
  split; [| split].
  - rewrite saves_from by apply Nat.le_0_l.
    now rewrite app_nil_r.
  - rewrite saves_from by apply Nat.le_0_l.
    rewrite app_nil_r, length_firstn, length_rev. reflexivity.
  - intros history entry. now rewrite saveToHistory_firstn.
Qed.

(** X14: the rows shown are the first rows of the results and never more
    than 100; the count shown is the number of all rows; and "more results"
    is signalled exactly when some row is not shown. *)
Theorem displayed_results {Row : Type} (q : queryResults Row) :
  displayedResults q = firstn 100 (rowsOf q) /\
  List.length (displayedResults q) = Nat.min 100 (recordCount q) /\
  recordCount q = List.length (rowsOf q) /\
  (hasMoreResults q = true <->
   List.length (displayedResults q) < recordCount q) /\
  (hasMoreResults q = false -> displayedResults q = rowsOf q).
Proof.
  unfold displayedResults, recordCount, hasMoreResults, hasResults, rowsOf,
    MAX_RESULTS_DISPLAY.
  destruct (results q) as [rows |].
  - destruct rows as [|r rows].
    + simpl. repeat split; try discriminate; try lia; reflexivity.
    + replace (Nat.ltb 0 (List.length (r :: rows))) with true by reflexivity.
      cbn [andb]. rewrite length_firstn.
      repeat split.
      * intros H. apply Nat.ltb_lt in H. lia.
      * intros H. apply Nat.ltb_lt. lia.
      * intros H. apply Nat.ltb_ge in H. now apply firstn_all2.
  - simpl. repeat split; try discriminate; try lia; reflexivity.
Qed.

End Component.

(* ================================================================= *)
(** ** The clause builders off the schema *)

Section Acceptance.
Import Js SOQLBuilder.

Lemma unknown_tables (object : string) :
  get schemaObjects object = Undefined ->
  getDefaultFields object = Arr ["Id"; "Name"; "CreatedDate"] /\
  getDefaultConditions object = Arr ["IsDeleted = false"] /\
  getOrderByFields object = Arr ["CreatedDate DESC"].
Proof.
  unfold getDefaultFields, getDefaultConditions, getOrderByFields, getOr, get,
    schemaObjects, SalesforceMapping.objects.
  cbn [assoc].
  repeat match goal with
         | |- context [String.eqb ?k object] =>
             destruct (String.eqb_spec k object) as [<- | _]; [discriminate |]
         end.
  destruct (assoc object Object_prototype); [discriminate |].
  intros _. repeat split.
Qed.

Lemma filterM_unknown (object : string) (l : list string) :
  get schemaObjects object = Undefined ->
  filterM (fun field => isFieldValid field object) l = Return [].
Proof.
  intros Hget. induction l as [|x l IH]; [reflexivity |].
  cbn [filterM]. unfold isFieldValid at 1. rewrite Hget, IH. reflexivity.
Qed.

(** X16: on an object name that is in no table (neither a key of the
    schema nor a member of Object.prototype) the clause builders fall back
    on their defaults: no field passes [isFieldValid], so the SELECT clause
    is "SELECT Id, Name" whatever the fields asked for; the ORDER BY clause
    is "ORDER BY CreatedDate DESC"; and the WHERE clause is built as for an
    object of the schema, with the default filter "IsDeleted = false". *)
Theorem builders_off_schema (fields conditions : list string) (query object : string) :
  get schemaObjects object = Undefined ->
  (exists kept, buildSelectClause fields object = Return (kept, "SELECT Id, Name")) /\
  buildOrderByClause object = Return "ORDER BY CreatedDate DESC" /\
  buildWhereClause conditions query object
  = Return (Spec.whereClause conditions
              (extractConditionsFromQuery query object) ["IsDeleted = false"]) /\
  includes (Spec.whereClause conditions
              (extractConditionsFromQuery query object) ["IsDeleted = false"])
           "IsDeleted = false" = true.
Proof.
  intros Hget. destruct (unknown_tables object Hget) as [Hdf [Hdc Hob]].
  split; [| split; [| split]].
  - unfold buildSelectClause, selectFields, validate. rewrite Hdf.
    destruct (Nat.eqb (List.length fields) 0);
      rewrite (filterM_unknown _ _ Hget); eexists; reflexivity.
  - unfold buildOrderByClause. now rewrite Hob.
  - unfold buildWhereClause. rewrite Hdc.
    set (all := (conditions ++ extractConditionsFromQuery query object
                            ++ ["IsDeleted = false"])%list).
    assert (Hlen : Nat.eqb (List.length all) 0 = false).
    { apply Nat.eqb_neq. unfold all. rewrite !length_app. simpl. lia. }
    rewrite Hlen, setOf_filter_nonBlank.
    unfold Spec.whereClause, Spec.predicates. fold all.
    now destruct (filter (fun p => negb (Spec.blank p)) (Spec.dedup all)).
  - rewrite whereClause_present.
    apply includes_append_l, join_includes, predicates_default.
Qed.

Lemma builders_off_schema_witness :
  get schemaObjects "Product" = Undefined /\
  buildSelectClause ["Name"; "Price__c"] "Product"
  = Return (["Id"; "Name"; "Price__c"], "SELECT Id, Name") /\
  buildOrderByClause "Product" = Return "ORDER BY CreatedDate DESC".
Proof.
  split; [reflexivity |].
  destruct (builders_off_schema ["Name"; "Price__c"] [] "products" "Product" eq_refl)
    as [_ [Horder _]].
  split; [reflexivity | exact Horder].
Defined.

Lemma conditions_copied_verbatim_witness :
  generateSOQL (Spec.intent "Lead" ["Company"] ["Rating = 'Hot'"]) "leads this month"
  = Success {| soql := "SELECT Id, Company FROM Lead WHERE Rating = 'Hot' AND CreatedDate = THIS_MONTH AND IsDeleted = false ORDER BY Name LIMIT 1000";
               fields := ["Id"; "Company"];
               object := "Lead";
               conditions := ["Rating = 'Hot'"] |} /\
  includes "SELECT Id, Company FROM Lead WHERE Rating = 'Hot' AND CreatedDate = THIS_MONTH AND IsDeleted = false ORDER BY Name LIMIT 1000"
           "Rating = 'Hot'" = true.
Proof.
  split; [reflexivity |].
  destruct (conditions_copied_verbatim
              (Spec.intent "Lead" ["Company"] ["Rating = 'Hot'"]) "leads this month"
              _ eq_refl) as [_ [Hcopied _]].
  apply (Hcopied "Rating = 'Hot'"); [now left | reflexivity].
Defined.

End Acceptance.
